(** * Real-estate project map: normalizer, derived state, uploads and chart

    A shallow embedding of the dashboard's logic: the record normalizer
    [transformItemToProject], the derived state of [App] (province list,
    investor roster, filtered project list, selection reconciliation), the
    upload handler, the marker guard of [MapDisplay] and the coordinate
    mapping of [PriceChart].

    Strings are Rocq strings holding the UTF-8 bytes of the text (a lone
    surrogate as its three-byte form); where the program looks at UTF-16
    code units -- the default [sort()], the spread of a string --
    [codeUnits] decodes them. Numbers are binary64 floats, and the values
    the program receives as [any] are the JSON values of [JS.value]. *)

From Stdlib Require Import List String Ascii Bool Arith NArith ZArith Lia.
From Stdlib Require Import Floats Uint63 Permutation Sorted DecimalString.
Import ListNotations.

Set Warnings "-inexact-float,-register-all".

Local Open Scope string_scope.
Local Open Scope list_scope.

(* ===================================================================== *)
(** ** Values of the JavaScript runtime *)
(* ===================================================================== *)

Module JS.

(** What [JSON.parse] and the CSV parser hand to the program, plus
    [undefined] for a property that is not there. An object is the list of
    its own properties. *)
Inductive value : Type :=
| Undefined
| Null
| Bool (b : bool)
| Num (x : float)
| Str (s : string)
| Arr (xs : list value)
| Obj (props : list (string * value)).

(** A thrown value: an [Error] instance with its message, or something
    that is not an [Error]. *)
Inductive exn : Type :=
| Err (message : string)
| NonErr.

Definition result (A : Type) : Type := (exn + A)%type.

Definition ret {A : Type} (a : A) : result A := inr a.
Definition throw {A : Type} (e : exn) : result A := inl e.
Definition bind {A B : Type} (m : result A) (k : A -> result B) : result B :=
  match m with
  | inl e => inl e
  | inr a => k a
  end.

Fixpoint mapM {A B : Type} (f : A -> result B) (l : list A) : result (list B) :=
  match l with
  | [] => ret []
  | x :: t => bind (f x) (fun y => bind (mapM f t) (fun ys => ret (y :: ys)))
  end.

(** ToBoolean. *)
Definition truthy (v : value) : bool :=
  match v with
  | Undefined | Null => false
  | Bool b => b
  | Num x => negb (PrimFloat.is_zero x || PrimFloat.is_nan x)
  | Str s => negb (s =? "")
  | Arr _ | Obj _ => true
  end.

(** [a || b]. *)
Definition or (a b : value) : value := if truthy a then a else b.

Inductive type_tag : Type :=
| TUndefined | TObject | TBoolean | TNumber | TString.

(** [typeof v]. *)
Definition typeof (v : value) : type_tag :=
  match v with
  | Undefined => TUndefined
  | Null | Arr _ | Obj _ => TObject
  | Bool _ => TBoolean
  | Num _ => TNumber
  | Str _ => TString
  end.

(** Own properties, in the order they were created. *)
Fixpoint lookup {A : Type} (k : string) (props : list (string * A))
  : option A :=
  match props with
  | [] => None
  | (k', v) :: rest => if k' =? k then Some v else lookup k rest
  end.

Fixpoint remove {A : Type} (k : string) (props : list (string * A))
  : list (string * A) :=
  match props with
  | [] => []
  | (k', v) :: rest =>
      if k' =? k then remove k rest else (k', v) :: remove k rest
  end.

Definition hasOwn {A : Type} (k : string) (props : list (string * A))
  : bool :=
  match lookup k props with Some _ => true | None => false end.

(** [o[k] = v] on own properties: overwrite in place, or append. *)
Fixpoint assign {A : Type} (k : string) (v : A) (props : list (string * A))
  : list (string * A) :=
  match props with
  | [] => [(k, v)]
  | (k', v') :: rest =>
      if k' =? k then (k, v) :: rest else (k', v') :: assign k v rest
  end.


Definition isNullish (v : value) : bool :=
  match v with
  | Undefined | Null => true
  | _ => false
  end.

End JS.

Import JS.

Declare Scope js_scope.
Delimit Scope js_scope with js.
Notation "x <- m ;; k" := (JS.bind m (fun x => k))
  (at level 61, m at next level, right associativity) : js_scope.
Infix "|||" := JS.or (at level 50, left associativity) : js_scope.
Local Open Scope js_scope.

(* ===================================================================== *)
(** ** Text as UTF-16 code units *)
(* ===================================================================== *)

(** What a byte that opens a character contributes: code points that are
    complete, the number of continuation bytes awaited, and the bits read
    so far. A byte that cannot open a character gives U+FFFD. *)
Definition startByte (b : N) : list N * nat * N :=
  if (b <? 128)%N then ([b], 0, 0%N)
  else if (b <? 192)%N then ([65533%N], 0, 0%N)
  else if (b <? 224)%N then ([], 1, (b - 192)%N)
  else if (b <? 240)%N then ([], 2, (b - 224)%N)
  else if (b <? 248)%N then ([], 3, (b - 240)%N)
  else ([65533%N], 0, 0%N).

Definition continuationByte (b : N) : bool :=
  ((128 <=? b) && (b <? 192))%N.

(** The code points of UTF-8 text; [pending] continuation bytes are still
    awaited for the code point whose leading bits are [acc]. *)
Fixpoint codePointsFrom (s : string) (pending : nat) (acc : N) : list N :=
  match s with
  | EmptyString =>
      match pending with
      | 0 => []
      | S _ => [65533%N]
      end
  | String c t =>
      let b := N_of_ascii c in
      match pending with
      | 0 =>
          let '(out, p, a) := startByte b in
          out ++ codePointsFrom t p a
      | S p =>
          if continuationByte b then
            let a := (acc * 64 + (b - 128))%N in
            match p with
            | 0 => a :: codePointsFrom t 0 0%N
            | S _ => codePointsFrom t p a
            end
          else
            let '(out, p', a) := startByte b in
            65533%N :: out ++ codePointsFrom t p' a
      end
  end.

(** A code point as one code unit, or as a surrogate pair. *)
Definition utf16 (cp : N) : list N :=
  if (cp <? 65536)%N then [cp]
  else [(55296 + (cp - 65536) / 1024)%N; (56320 + (cp - 65536) mod 1024)%N].

(** The UTF-16 code units of a text: what a JavaScript string is made
    of. *)
Definition codeUnits (s : string) : list N :=
  flat_map utf16 (codePointsFrom s 0 0%N).

(** The text made of one code unit. *)
Definition unitText (u : N) : string :=
  if (u <? 128)%N then String (ascii_of_N u) EmptyString
  else if (u <? 2048)%N then
    String (ascii_of_N (192 + u / 64))
      (String (ascii_of_N (128 + u mod 64)) EmptyString)
  else
    String (ascii_of_N (224 + u / 4096))
      (String (ascii_of_N (128 + (u / 64) mod 64))
         (String (ascii_of_N (128 + u mod 64)) EmptyString)).

(** Whether the text of a code unit decodes to that unit alone. *)
Definition unitRoundTrip (u : N) : bool :=
  match codeUnits (unitText u) with
  | [v] => (v =? u)%N
  | _ => false
  end.

(** Whether [f] holds of every number that extends the binary digits of
    [prefix] by [depth] more digits. *)
Fixpoint allBits (depth : nat) (prefix : N) (f : N -> bool) : bool :=
  match depth with
  | 0 => f prefix
  | S d => allBits d (2 * prefix) f && allBits d (2 * prefix + 1) f
  end.

(** Comparison of two strings as the relational operators and the default
    [sort()] make it: code unit by code unit, a proper prefix first. *)
Fixpoint compareUnits (a b : list N) : comparison :=
  match a, b with
  | [], [] => Eq
  | [], _ :: _ => Lt
  | _ :: _, [] => Gt
  | x :: a', y :: b' =>
      match (x ?= y)%N with
      | Eq => compareUnits a' b'
      | c => c
      end
  end.

Definition codeUnitLeb (s t : string) : bool :=
  match compareUnits (codeUnits s) (codeUnits t) with
  | Gt => false
  | _ => true
  end.

(* ===================================================================== *)
(** ** The platform the program runs on *)
(* ===================================================================== *)

(** One error reported by the CSV parser, and the parser's result. *)
Record PapaError : Type := mkPapaError {
  row : nat;
  message : string
}.

Record PapaResult : Type := mkPapaResult {
  errors : list PapaError;
  data : list value
}.

(** Built-ins the program calls and does not define. Everything below is
    stated for an arbitrary platform; [toLowerCase_empty] is the one fact
    about them that the proofs use (lower-casing neither deletes the last
    character of a text nor invents one). *)
Class Platform : Type := {
  (** [String.prototype.trim] *)
  trim : string -> string;
  (** [String.prototype.toLowerCase] *)
  toLowerCase : string -> string;
  toLowerCase_empty : forall s, toLowerCase s = "" <-> s = "";
  (** [String.prototype.localeCompare], by the sign of its result *)
  localeCompare : string -> string -> comparison;
  (** [JSON.parse]: the parsed value, or the [SyntaxError] it throws *)
  JSON_parse : string -> result value;
  (** [parseFloat] of a string *)
  parseFloat_string : string -> float;
  (** Number to string, as ToString does it *)
  numberToString : float -> string;
  (** [Papa.parse(content, {header: true, skipEmptyLines: true})] *)
  Papa_parse : string -> PapaResult;
  (** wording of the engine's [TypeError]s *)
  cannotRead : value -> string -> string;
  cannotConvert : string
}.

Section Runtime.

Context {PF : Platform}.

(** [item[k]] for the property names the program reads. None of them is an
    array index, [length], or a member of a built-in prototype, so only an
    object can hold one. *)
Definition prop (item : value) (k : string) : value :=
  match item with
  | Obj props =>
      match lookup k props with
      | Some v => v
      | None => Undefined
      end
  | _ => Undefined
  end.

(** Reading a property of [null] or [undefined] throws. *)
Definition get (item : value) (k : string) : result value :=
  if isNullish item then throw (Err (cannotRead item k))
  else ret (prop item k).

(** ToString. An array joins its elements with commas ([null] and
    [undefined] print as nothing). An object without an own [toString]
    inherits the one that prints [[object Object]]; with an own [toString]
    (never callable in parsed data) the conversion falls back on the
    inherited [valueOf], which returns the object, and fails. *)
Fixpoint ToString (v : value) : result string :=
  match v with
  | Undefined => ret "undefined"
  | Null => ret "null"
  | Bool true => ret "true"
  | Bool false => ret "false"
  | Num x => ret (numberToString x)
  | Str s => ret s
  | Arr xs =>
      (fix join (l : list value) : result string :=
         match l with
         | [] => ret ""
         | x :: rest =>
             s <- (if isNullish x then ret "" else ToString x) ;;
             match rest with
             | [] => ret s
             | _ => r <- join rest ;; ret (s ++ "," ++ r)%string
             end
         end) xs
  | Obj props =>
      if hasOwn "toString" props then throw (Err cannotConvert)
      else ret "[object Object]"
  end.

(** [parseFloat(v)]: convert to a string, then read a decimal prefix. *)
Definition parseFloat (v : value) : result float :=
  s <- ToString v ;; ret (parseFloat_string s).

Definition indexKey (i : nat) : string :=
  NilZero.string_of_uint (Nat.to_uint i).

Fixpoint indexed {A : Type} (i : nat) (l : list A) : list (string * A) :=
  match l with
  | [] => []
  | x :: t => (indexKey i, x) :: indexed (S i) t
  end.

(** The one-unit strings that the spread of a string enumerates. *)
Definition chars (s : string) : list value :=
  map (fun u => Str (unitText u)) (codeUnits s).

(** The own enumerable properties that [...v] copies. *)
Definition ownProps (v : value) : list (string * value) :=
  match v with
  | Obj props => props
  | Arr xs => indexed 0 xs
  | Str s => indexed 0 (chars s)
  | _ => []
  end.

Definition assignAll (src acc : list (string * value))
  : list (string * value) :=
  fold_left (fun o kv => assign (fst kv) (snd kv) o) src acc.

(** [{ ...a, ...b }] *)
Definition spread (a b : value) : value :=
  Obj (assignAll (ownProps b) (assignAll (ownProps a) [])).

Definition startsWith (s p : string) : bool := String.prefix p s.

End Runtime.

(* ===================================================================== *)
(** ** Record normalizer: [transformItemToProject] *)
(* ===================================================================== *)

(** The [Project] interface. [T] is the type of its text fields: [string]
    as declared, [value] for what the normalizer stores at run time, where
    an item typed [any] may hold anything under a text key. [attributes]
    and [priceHistory] are carried as received. *)
Record ProjectOf (T : Type) : Type := mkProject {
  name : T;
  projectUrl : T;
  province : T;
  district : T;
  category : T;
  latitude : option float;
  longitude : option float;
  area : T;
  units : T;
  towers : T;
  investor : T;
  attributes : value;
  priceHistory : value
}.

Arguments mkProject {T}.
Arguments name {T}.
Arguments projectUrl {T}.
Arguments province {T}.
Arguments district {T}.
Arguments category {T}.
Arguments latitude {T}.
Arguments longitude {T}.
Arguments area {T}.
Arguments units {T}.
Arguments towers {T}.
Arguments investor {T}.
Arguments attributes {T}.
Arguments priceHistory {T}.

Definition Project : Type := ProjectOf string.
Definition RawProject : Type := ProjectOf value.

(** The text a value holds, if it is text. *)
Definition textOf (v : value) : option string :=
  match v with
  | Str s => Some s
  | _ => None
  end.

(** A stored record read at the declared type [Project]: there is one
    when each of its text fields holds text. The normalizer does not see
    to that; for a record with [investor: 5] there is none, and the
    program's [project.investor.trim()] is a TypeError in the next
    render. *)
Definition asProject (r : RawProject) : option Project :=
  match textOf (name r), textOf (projectUrl r), textOf (province r),
        textOf (district r), textOf (category r), textOf (area r),
        textOf (units r), textOf (towers r), textOf (investor r) with
  | Some name_, Some projectUrl_, Some province_, Some district_,
    Some category_, Some area_, Some units_, Some towers_, Some investor_ =>
      Some (mkProject name_ projectUrl_ province_ district_ category_
              (latitude r) (longitude r) area_ units_ towers_ investor_
              (attributes r) (priceHistory r))
  | _, _, _, _, _, _, _, _, _ => None
  end.

Section Normalizer.

Context {PF : Platform}.

(** The block that handles the "Attributes (Other)" column. A failed
    [JSON.parse] is caught and only logged. *)
Definition mergeAttributes (attributes rawAttributes : value) : value :=
  if truthy rawAttributes then
    match rawAttributes with
    | Str s =>
        if startsWith (trim s) "{" then
          match JSON_parse s with
          | inr parsed => spread attributes parsed
          | inl _ => attributes
          end
        else attributes
    | Arr _ | Obj _ => spread attributes rawAttributes
    | _ => attributes
    end
  else attributes.

(** [item[k] || item[alias] || dflt] *)
Definition field (item : value) (k alias : string) (dflt : value)
  : result value :=
  a <- get item k ;;
  b <- get item alias ;;
  ret (a ||| b ||| dflt).

(** [item[k1] || item[k2] || item[k3]] *)
Definition coordinateOperand (item : value) (k1 k2 k3 : string)
  : result value :=
  a <- get item k1 ;;
  b <- get item k2 ;;
  c <- get item k3 ;;
  ret (a ||| b ||| c).

(** [isNaN(x) ? null : x] *)
Definition coordinate (x : float) : option float :=
  if PrimFloat.is_nan x then None else Some x.

Definition transformItemToProject (item : value) : result RawProject :=
  attributes_ <- get item "attributes" ;;
  let attributes0 := attributes_ ||| Obj [] in
  rawAttributes <- get item "Attributes (Other)" ;;
  let attributes1 := mergeAttributes attributes0 rawAttributes in
  latOperand <- coordinateOperand item "latitude" "Latitude" "lat" ;;
  lat <- parseFloat latOperand ;;
  lngOperand <- coordinateOperand item "longitude" "Longitude" "long" ;;
  lng <- parseFloat lngOperand ;;
  name_ <- field item "name" "Tên Dự Án" (Str "N/A") ;;
  projectUrl_ <- field item "projectUrl" "URL Dự Án" (Str "#") ;;
  province_ <- field item "province" "Cấp 2" (Str "N/A") ;;
  district_ <- field item "district" "Cấp 3" (Str "N/A") ;;
  category_ <- field item "category" "Cấp 4" (Str "N/A") ;;
  area_ <- field item "area" "Diện tích" (Str "N/A") ;;
  units_ <- field item "units" "Số căn" (Str "N/A") ;;
  towers_ <- field item "towers" "Số tòa" (Str "N/A") ;;
  investor_ <- field item "investor" "Chủ đầu tư" (Str "N/A") ;;
  priceHistory_ <- get item "priceHistory" ;;
  ret {| name := name_;
         projectUrl := projectUrl_;
         province := province_;
         district := district_;
         category := category_;
         latitude := coordinate lat;
         longitude := coordinate lng;
         area := area_;
         units := units_;
         towers := towers_;
         investor := investor_;
         attributes := attributes1;
         priceHistory := priceHistory_ ||| Null |}.

End Normalizer.

(* ===================================================================== *)
(** ** Derived state of [App] *)
(* ===================================================================== *)

Module Investor.

(** What [investorCounts] holds under a name: a number, or the text that
    [+ 1] produced when the name was found on [Object.prototype]. *)
Inductive Count : Type :=
| Number (n : nat)
| Text.

(** An entry of the investor roster, [{ name, count }]. *)
Record t : Type := mk { name : string; count : Count }.

End Investor.

(** [String.prototype.includes] *)
Fixpoint includes (s sub : string) : bool :=
  String.prefix sub s ||
  match s with
  | EmptyString => false
  | String _ t => includes t sub
  end.

(** Stable sort by a comparison that answers "may [a] stay before [b]". *)
Fixpoint insertSorted {A : Type} (le : A -> A -> bool) (x : A) (l : list A)
  : list A :=
  match l with
  | [] => [x]
  | y :: t => if le x y then x :: y :: t else y :: insertSorted le x t
  end.

Fixpoint sortBy {A : Type} (le : A -> A -> bool) (l : list A) : list A :=
  match l with
  | [] => []
  | x :: t => insertSorted le x (sortBy le t)
  end.

(** [[...new Set(l)]]: first occurrences, in order. *)
Definition setAdd (seen : list string) (x : string) : list string :=
  if existsb (String.eqb x) seen then seen else seen ++ [x].

Definition newSet (l : list string) : list string := fold_left setAdd l [].

(** The names every object literal inherits from [Object.prototype]. *)
Definition objectPrototype : list string :=
  [ "constructor"; "__defineGetter__"; "__defineSetter__"; "hasOwnProperty";
    "__lookupGetter__"; "__lookupSetter__"; "isPrototypeOf";
    "propertyIsEnumerable"; "toString"; "valueOf"; "__proto__";
    "toLocaleString" ].

Definition inherited (k : string) : bool := existsb (String.eqb k) objectPrototype.

Section Engine.

Context {PF : Platform}.

(** [p.investor && p.investor.trim() !== '' ? p.investor : 'N/A'] *)
Definition normalizedInvestor (project : Project) : string :=
  if negb (investor project =? "") && negb (trim (investor project) =? "")
  then investor project
  else "N/A".

(** [provinces]. [sort()] without a comparator orders strings by their
    UTF-16 code units. *)
Definition provinces (allProjects : list Project) : list string :=
  sortBy codeUnitLeb
    (newSet (filter (fun s => negb (s =? "")) (map province allProjects))).

(** [availableDistricts] *)
Definition availableDistricts (selectedProvince : string)
    (allProjects : list Project) : list string :=
  if selectedProvince =? "All" then []
  else
    sortBy codeUnitLeb
      (newSet
         (filter (fun s => negb (s =? ""))
            (map district
               (filter (fun p => province p =? selectedProvince)
                  allProjects)))).

(** [relevantProjects] of [investorsData] *)
Definition relevantProjects (allProjects : list Project)
    (selectedProvince selectedDistrict : string) : list Project :=
  filter
    (fun project =>
       let provinceMatch :=
         (selectedProvince =? "All") || (province project =? selectedProvince) in
       let districtMatch :=
         (selectedDistrict =? "All") || (district project =? selectedDistrict) in
       provinceMatch && districtMatch)
    allProjects.

(** [investorCounts[invName] = (investorCounts[invName] || 0) + 1] on the
    object literal [{}]. An own number is incremented. A name not yet
    counted reads [undefined] and becomes 1, unless [Object.prototype] has
    it: then the read gives the inherited function (or, for [__proto__],
    the prototype), [+ 1] turns it into text, and the text is stored as an
    own property and only grows on later reads. Storing text under
    [__proto__] does nothing. *)
Definition countInvestor (investorCounts : list (string * Investor.Count))
    (invName : string) : list (string * Investor.Count) :=
  match lookup invName investorCounts with
  | Some (Investor.Number n) =>
      assign invName (Investor.Number (n + 1)) investorCounts
  | Some Investor.Text => assign invName Investor.Text investorCounts
  | None =>
      if inherited invName then
        if invName =? "__proto__" then investorCounts
        else assign invName Investor.Text investorCounts
      else assign invName (Investor.Number 1) investorCounts
  end.

Definition investorCounts (projects : list Project)
  : list (string * Investor.Count) :=
  fold_left (fun counts project => countInvestor counts (normalizedInvestor project))
    projects [].

(** [count >= minProjectsCount]; text converts to NaN, which compares
    false. *)
Definition countAtLeast (count : Investor.Count) (minProjectsCount : nat)
  : bool :=
  match count with
  | Investor.Number n => (minProjectsCount <=? n)%nat
  | Investor.Text => false
  end.

Definition byName (a b : Investor.t) : bool :=
  match localeCompare (Investor.name a) (Investor.name b) with
  | Gt => false
  | _ => true
  end.

(** [investorsData]. [Object.entries] lists numeric-looking names first;
    the roster is sorted afterwards, so the model keeps creation order. *)
Definition investorsData (allProjects : list Project)
    (selectedProvince selectedDistrict : string) (minProjectsCount : nat)
  : list Investor.t :=
  sortBy byName
    (filter (fun i => countAtLeast (Investor.count i) minProjectsCount)
       (map (fun e => Investor.mk (fst e) (snd e))
          (investorCounts
             (relevantProjects allProjects selectedProvince selectedDistrict)))).

(** [eligibleInvestorNames.has(x)] *)
Definition eligible (roster : list Investor.t) (x : string) : bool :=
  existsb (fun i => Investor.name i =? x) roster.

(** The predicate of the effect that computes [filteredProjects]. *)
Definition projectMatches
    (selectedProvince selectedDistrict selectedInvestor : string)
    (minProjectsCount : nat) (searchQuery investorSearchQuery : string)
    (project : Project) : bool :=
  let provinceMatch :=
    (selectedProvince =? "All") || (province project =? selectedProvince) in
  let districtMatch :=
    (selectedDistrict =? "All") || (district project =? selectedDistrict) in
  let projectInvestor := normalizedInvestor project in
  let investorMatch :=
    if negb (selectedInvestor =? "All") then projectInvestor =? selectedInvestor
    else if (0 <? minProjectsCount)%nat then true
    else true in
  let searchMatch :=
    (searchQuery =? "") ||
    (negb (name project =? "") &&
     includes (toLowerCase (name project)) (toLowerCase searchQuery)) in
  let investorSearchMatch :=
    (investorSearchQuery =? "") ||
    includes (toLowerCase projectInvestor) (toLowerCase investorSearchQuery) in
  provinceMatch && districtMatch && investorMatch && searchMatch
  && investorSearchMatch.

Definition filterProjects (allProjects : list Project)
    (selectedProvince selectedDistrict selectedInvestor : string)
    (minProjectsCount : nat) (searchQuery investorSearchQuery : string)
  : list Project :=
  filter
    (projectMatches selectedProvince selectedDistrict selectedInvestor
       minProjectsCount searchQuery investorSearchQuery)
    allProjects.

End Engine.

(* ===================================================================== *)
(** ** State of [App], its handlers and effects *)
(* ===================================================================== *)

Module File.

(** An uploaded file: its name, its MIME type, and what [readAsText]
    delivers ([None] when the read fails and [onerror] fires). *)
Record t : Type := mk {
  name : string;
  type : string;
  text : option string
}.

End File.

Module App.

(** The [useState] cells. [P] is the type of the records held. *)
Record State (P : Type) : Type := mkState {
  allProjects : list P;
  filteredProjects : list P;
  uploadError : option string;
  selectedProvince : string;
  selectedDistrict : string;
  selectedInvestor : string;
  showLabels : bool;
  minProjectsCount : nat;
  searchQuery : string;
  investorSearchQuery : string
}.

Arguments mkState {P}.
Arguments allProjects {P}.
Arguments filteredProjects {P}.
Arguments uploadError {P}.
Arguments selectedProvince {P}.
Arguments selectedDistrict {P}.
Arguments selectedInvestor {P}.
Arguments showLabels {P}.
Arguments minProjectsCount {P}.
Arguments searchQuery {P}.
Arguments investorSearchQuery {P}.

Section Setters.

Context {P : Type}.

Definition setAllProjects (v : list P) (s : State P) : State P :=
  mkState v (filteredProjects s) (uploadError s) (selectedProvince s)
    (selectedDistrict s) (selectedInvestor s) (showLabels s)
    (minProjectsCount s) (searchQuery s) (investorSearchQuery s).

Definition setFilteredProjects (v : list P) (s : State P) : State P :=
  mkState (allProjects s) v (uploadError s) (selectedProvince s)
    (selectedDistrict s) (selectedInvestor s) (showLabels s)
    (minProjectsCount s) (searchQuery s) (investorSearchQuery s).

Definition setUploadError (v : option string) (s : State P) : State P :=
  mkState (allProjects s) (filteredProjects s) v (selectedProvince s)
    (selectedDistrict s) (selectedInvestor s) (showLabels s)
    (minProjectsCount s) (searchQuery s) (investorSearchQuery s).

Definition setSelectedProvince (v : string) (s : State P) : State P :=
  mkState (allProjects s) (filteredProjects s) (uploadError s) v
    (selectedDistrict s) (selectedInvestor s) (showLabels s)
    (minProjectsCount s) (searchQuery s) (investorSearchQuery s).

Definition setSelectedDistrict (v : string) (s : State P) : State P :=
  mkState (allProjects s) (filteredProjects s) (uploadError s)
    (selectedProvince s) v (selectedInvestor s) (showLabels s)
    (minProjectsCount s) (searchQuery s) (investorSearchQuery s).

Definition setSelectedInvestor (v : string) (s : State P) : State P :=
  mkState (allProjects s) (filteredProjects s) (uploadError s)
    (selectedProvince s) (selectedDistrict s) v (showLabels s)
    (minProjectsCount s) (searchQuery s) (investorSearchQuery s).

Definition setShowLabels (v : bool) (s : State P) : State P :=
  mkState (allProjects s) (filteredProjects s) (uploadError s)
    (selectedProvince s) (selectedDistrict s) (selectedInvestor s) v
    (minProjectsCount s) (searchQuery s) (investorSearchQuery s).

Definition setMinProjectsCount (v : nat) (s : State P) : State P :=
  mkState (allProjects s) (filteredProjects s) (uploadError s)
    (selectedProvince s) (selectedDistrict s) (selectedInvestor s)
    (showLabels s) v (searchQuery s) (investorSearchQuery s).

Definition setSearchQuery (v : string) (s : State P) : State P :=
  mkState (allProjects s) (filteredProjects s) (uploadError s)
    (selectedProvince s) (selectedDistrict s) (selectedInvestor s)
    (showLabels s) (minProjectsCount s) v (investorSearchQuery s).

Definition setInvestorSearchQuery (v : string) (s : State P) : State P :=
  mkState (allProjects s) (filteredProjects s) (uploadError s)
    (selectedProvince s) (selectedDistrict s) (selectedInvestor s)
    (showLabels s) (minProjectsCount s) (searchQuery s) v.

(** The state of the first render, for the record set [projects]
    ([window.__PRELOADED_PROJECTS__ || projectData]). *)
Definition initialState (projects : list P) : State P :=
  mkState projects projects None "All" "All" "All" false 0 "" "".

Definition resetFilters (s : State P) : State P :=
  setInvestorSearchQuery ""
    (setSearchQuery ""
       (setMinProjectsCount 0
          (setSelectedInvestor "All"
             (setSelectedDistrict "All" (setSelectedProvince "All" s))))).

Definition handleProvinceChange (province : string) (s : State P) : State P :=
  setSelectedDistrict "All" (setSelectedProvince province s).

Definition handleDistrictChange (district : string) (s : State P) : State P :=
  setSelectedDistrict district s.

Definition handleInvestorChange (investor : string) (s : State P) : State P :=
  setSelectedInvestor investor s.

Definition handleShowLabelsChange (v : bool) (s : State P) : State P :=
  setShowLabels v s.

Definition handleMinProjectsCountChange (count : nat) (s : State P)
  : State P :=
  setMinProjectsCount count s.

Definition handleSearchChange (query : string) (s : State P) : State P :=
  setSearchQuery query s.

Definition handleInvestorSearchChange (query : string) (s : State P)
  : State P :=
  setInvestorSearchQuery query s.

End Setters.

Section Upload.

Context {PF : Platform} {P : Type}.

(** The normalizer applied to each item; [transformItemToProject] in the
    program. *)
Variable normalize : value -> result P.

Fixpoint endsWith (s suffix : string) : bool :=
  (s =? suffix) ||
  match s with
  | EmptyString => false
  | String _ t => endsWith t suffix
  end.

Definition showNat (n : nat) : string :=
  NilZero.string_of_uint (Nat.to_uint n).

(** [loadPapaParse()]: resolves when the script is there or loads. *)
Definition loadPapaParse (papaLoads : bool) : result unit :=
  if papaLoads then ret tt
  else throw (Err "Failed to load PapaParse library.").

(** The body of the [try] block in [reader.onload]. *)
Definition processFile (file : File.t) (papaLoads : bool) (content : string)
  : result (list P) :=
  if (File.type file =? "application/json") || endsWith (File.name file) ".json"
  then
    jsonData <- JSON_parse content ;;
    match jsonData with
    | Arr items => mapM normalize items
    | _ => throw (Err "Invalid JSON format. Expected an array of projects.")
    end
  else if (File.type file =? "text/csv") || endsWith (File.name file) ".csv"
  then
    _ <- loadPapaParse papaLoads ;;
    let parsed := Papa_parse content in
    match errors parsed with
    | e :: _ =>
        throw (Err ("CSV parsing error on row " ++ showNat (row e) ++ ": "
                    ++ message e)%string)
    | [] => mapM normalize (data parsed)
    end
  else throw (Err "Unsupported file type. Please upload a .csv or .json file.").

(** [error instanceof Error ? error.message : 'An unknown error occurred.'] *)
Definition errorText (e : exn) : string :=
  match e with
  | Err m => m
  | NonErr => "An unknown error occurred."
  end.

(** What follows the [try] block, and its [catch]. *)
Definition completeUpload (outcome : result (list P)) (s : State P)
  : State P :=
  match outcome with
  | inr newProjects => resetFilters (setAllProjects newProjects s)
  | inl e => setUploadError (Some (errorText e)) s
  end.

Definition handleFileUpload (file : File.t) (papaLoads : bool) (s : State P)
  : State P :=
  let s1 := setUploadError None s in
  match File.text file with
  | Some content => completeUpload (processFile file papaLoads content) s1
  | None => setUploadError (Some "Failed to read the file.") s1
  end.

End Upload.

Section Effects.

Context {PF : Platform}.

Definition roster (s : State Project) : list Investor.t :=
  investorsData (allProjects s) (selectedProvince s) (selectedDistrict s)
    (minProjectsCount s).

(** The effect that resets a selection the roster no longer offers. *)
Definition reconcileEffect (s : State Project) : State Project :=
  if negb (selectedInvestor s =? "All")
     && negb (eligible (roster s) (selectedInvestor s))
  then setSelectedInvestor "All" s
  else s.

Definition filtered (s : State Project) : list Project :=
  filterProjects (allProjects s) (selectedProvince s) (selectedDistrict s)
    (selectedInvestor s) (minProjectsCount s) (searchQuery s)
    (investorSearchQuery s).

(** One render and the effects it schedules: both read the state that was
    rendered, and their updates are applied together. *)
Definition effects (s : State Project) : State Project :=
  setFilteredProjects (filtered s) (reconcileEffect s).

(** An update cycle: renders and effects until nothing changes. Two rounds
    are enough ([effects_settle] below). *)
Definition settle (s : State Project) : State Project := effects (effects s).

End Effects.

End App.

(* ===================================================================== *)
(** ** [ProjectMarker] of [MapDisplay] *)
(* ===================================================================== *)

(** Truthiness of [project.latitude], a number or [null]. *)
Definition coordinateTruthy (c : option float) : bool :=
  match c with
  | None => false
  | Some x => truthy (Num x)
  end.

(** The position of the marker that is rendered, if one is:
    [if (!project.latitude || !project.longitude) return null]. *)
Definition ProjectMarker {T : Type} (project : ProjectOf T)
  : option (float * float) :=
  if negb (coordinateTruthy (latitude project))
     || negb (coordinateTruthy (longitude project))
  then None
  else
    match latitude project, longitude project with
    | Some lat, Some lng => Some (lat, lng)
    | _, _ => None
    end.

(* ===================================================================== *)
(** ** [PriceChart]: coordinate mapping *)
(* ===================================================================== *)

Module PriceChart.

Local Open Scope float_scope.

Record PriceHistory : Type := mkPriceHistory {
  labels : list string;
  avg : list float;
  min : list float;
  max : list float
}.

(** An array length or index as a number. *)
Definition number (n : nat) : float :=
  PrimFloat.of_uint63 (Uint63.of_Z (Z.of_nat n)).

Definition isNegativeZero (x : float) : bool :=
  match PrimFloat.classify x with
  | NZero => true
  | _ => false
  end.

(** [Math.min] and [Math.max]: NaN wins, and -0 is below +0. *)
Definition min2 (a b : float) : float :=
  if PrimFloat.is_nan a || PrimFloat.is_nan b then nan
  else if a <? b then a
  else if b <? a then b
  else if isNegativeZero a then a
  else b.

Definition max2 (a b : float) : float :=
  if PrimFloat.is_nan a || PrimFloat.is_nan b then nan
  else if a <? b then b
  else if b <? a then a
  else if isNegativeZero a then b
  else a.

Definition Math_min (l : list float) : float := fold_left min2 l infinity.
Definition Math_max (l : list float) : float := fold_left max2 l neg_infinity.

Definition width : float := 500.
Definition height : float := 300.
Definition padding : float := 30.
Definition chartWidth : float := width - padding * 2.
Definition chartHeight : float := height - padding * 2.

Section Chart.

Variable data : PriceHistory.

(** The series hold numbers, so the filter that drops [null] and
    [undefined] keeps every entry. *)
Definition allValues : list float := min data ++ max data ++ avg data.

Definition minValue : float := Math_min allValues * 0.9.
Definition maxValue : float := Math_max allValues * 1.1.
Definition range : float := maxValue - minValue.

Definition getX (index : float) : float :=
  padding + (index / (number (List.length (labels data)) - 1)) * chartWidth.

Definition getY (value : float) : float :=
  height - padding - ((value - minValue) / range) * chartHeight.

Inductive command : Type := M | L.

Fixpoint createPathFrom (index : nat) (values : list float)
  : list (command * float * float) :=
  match values with
  | [] => []
  | val :: rest =>
      ((if (index =? 0)%nat then M else L), getX (number index), getY val)
      :: createPathFrom (S index) rest
  end.

(** [createPath]: the segments that [join(' ')] glues together. *)
Definition createPath (values : list float)
  : list (command * float * float) :=
  createPathFrom 0 values.

End Chart.

(** A series whose every value is zero, and that has a value. *)
Definition flatZero (data : PriceHistory) : Prop :=
  allValues data <> [] /\ Forall (fun v => v = 0) (allValues data).

(** A coordinate that is NaN or infinite: no point of the canvas. *)
Definition offCanvas (y : float) : Prop :=
  PrimFloat.is_nan y = true \/ PrimFloat.is_infinity y = true.

End PriceChart.

(* ===================================================================== *)
(** ** A small platform to run the model on *)
(* ===================================================================== *)

(** ASCII versions of the string built-ins, a [parseFloat] for plain
    decimals, and parsers that know a handful of documents. The theorems
    do not depend on it; the examples are evaluated with it. *)
Module Example.

Definition isSpace (c : ascii) : bool :=
  let n := nat_of_ascii c in
  ((n =? 32) || ((9 <=? n) && (n <=? 13)))%nat.

Fixpoint trimStart (s : string) : string :=
  match s with
  | EmptyString => EmptyString
  | String c t => if isSpace c then trimStart t else s
  end.

Fixpoint trimEnd (s : string) : string :=
  match s with
  | EmptyString => EmptyString
  | String c t =>
      let t' := trimEnd t in
      if isSpace c && (t' =? "") then EmptyString else String c t'
  end.

Definition trim (s : string) : string := trimEnd (trimStart s).

Definition lowerChar (c : ascii) : ascii :=
  let n := nat_of_ascii c in
  if ((65 <=? n) && (n <=? 90))%nat then ascii_of_nat (n + 32) else c.

Fixpoint toLowerCase (s : string) : string :=
  match s with
  | EmptyString => EmptyString
  | String c t => String (lowerChar c) (toLowerCase t)
  end.

Definition toLowerCase_empty (s : string) : toLowerCase s = "" <-> s = "".
Proof. destruct s; simpl; split; intro H; (reflexivity || discriminate H). Qed.

(** Letters compare without regard to case first; on a tie the lower-case
    spelling comes first. *)
Definition localeCompare (a b : string) : comparison :=
  match String.compare (toLowerCase a) (toLowerCase b) with
  | Eq => String.compare b a
  | c => c
  end.

Definition digit (c : ascii) : option nat :=
  let n := nat_of_ascii c in
  if ((48 <=? n) && (n <=? 57))%nat then Some (n - 48) else None.

(** Reads a run of digits into [acc], multiplying [scale] by ten for each
    one; tells whether a digit was seen and what follows. *)
Fixpoint readDigits (s : string) (acc scale : float) (seen : bool)
  : float * float * bool * string :=
  match s with
  | EmptyString => (acc, scale, seen, s)
  | String c t =>
      match digit c with
      | Some d =>
          readDigits t (acc * 10 + PriceChart.number d)%float
            (scale * 10)%float true
      | None => (acc, scale, seen, s)
      end
  end.

Definition readUnsigned (s : string) : float :=
  let '(whole, _, seen1, rest) := readDigits s 0%float 1%float false in
  match rest with
  | String "." t =>
      let '(digits, scale, seen2, _) := readDigits t whole 1%float false in
      if seen1 || seen2 then (digits / scale)%float else nan
  | _ => if seen1 then whole else nan
  end.

(** [parseFloat] of a string, for an optional sign, digits and an optional
    fraction (no exponent, no [Infinity]). *)
Definition parseFloat_string (s : string) : float :=
  match trimStart s with
  | String "-" t => (- readUnsigned t)%float
  | String "+" t => readUnsigned t
  | t => readUnsigned t
  end.

(** Number to string for NaN, the infinities and the integers below 2^53;
    other numbers print as their integer part only. *)
Definition numberToString (x : float) : string :=
  if PrimFloat.is_nan x then "NaN"
  else if (x =? infinity)%float then "Infinity"
  else if (x =? neg_infinity)%float then "-Infinity"
  else
    match Prim2SF x with
    | S754_finite sign m e =>
        let n := (if (0 <=? e)%Z then Z.pos m * 2 ^ e
                  else Z.pos m / 2 ^ (- e))%Z in
        ((if sign && negb (n =? 0)%Z then "-" else "")
         ++ NilZero.string_of_uint (N.to_uint (Z.to_N n)))%string
    | _ => "0"
    end.

Definition quote : string := String (ascii_of_nat 34) EmptyString.

(** The JSON documents the examples parse. *)
Definition jsonDocuments : list (string * value) :=
  [ ("[]", Arr []);
    ("{}", Obj []);
    ("[null]", Arr [Null]);
    ("17", Num 17%float);
    ("[{}]", Arr [Obj []]);
    (("{" ++ quote ++ "Legal" ++ quote ++ ":" ++ quote ++ "ok" ++ quote ++ "}")%string,
     Obj [("Legal", Str "ok")]) ].

Definition JSON_parse (s : string) : result value :=
  match lookup s jsonDocuments with
  | Some v => ret v
  | None => throw (Err "Unexpected token in JSON")
  end.

(** A CSV document of one row. *)
Definition oneRowCsv : string := "name,lat
A,0".

(** The CSV documents the examples parse. *)
Definition csvDocuments : list (string * PapaResult) :=
  [ ("name,investor", mkPapaResult [] []);
    (oneRowCsv, mkPapaResult [] [Obj [("name", Str "A"); ("lat", Str "0")]]);
    ("a,b
1,2
3", mkPapaResult [mkPapaError 3 "X"] []) ].

Definition Papa_parse (s : string) : PapaResult :=
  match lookup s csvDocuments with
  | Some r => r
  | None => mkPapaResult [] []
  end.

Definition cannotRead (v : value) (k : string) : string :=
  ("Cannot read properties of "
   ++ (match v with Undefined => "undefined" | _ => "null" end)
   ++ " (reading '" ++ k ++ "')")%string.

#[export] Instance platform : Platform :=
  Build_Platform trim toLowerCase toLowerCase_empty localeCompare
    JSON_parse parseFloat_string numberToString Papa_parse cannotRead
    "Cannot convert object to primitive value".

(** The program's normalizer, with its result read at the declared type
    [Project]. The program itself makes no check: it stores what the
    normalizer returns, and a record with a non-text field makes the next
    render throw at [project.investor.trim()]. The transition system over
    typed states has no state for such a record, so the examples, which
    run on it, refuse the item; whenever an item is accepted, the record is
    the one the program stores. *)
Definition typedNormalizer (item : value) : result Project :=
  stored <- transformItemToProject item ;;
  match asProject stored with
  | Some project => ret project
  | None => throw (Err "not a text")
  end.

End Example.


(* ===================================================================== *)
(** ** Startup load, threshold input and map bounds *)
(* ===================================================================== *)

Module Response.

(** What [fetch('data.json')] resolves to: the [ok] flag, the
    [content-type] header ([None] when absent) and what [json()] gives. *)
Record t : Type := mk {
  ok : bool;
  contentType : option string;
  json : result value
}.

End Response.

Section Startup.

Context {PF : Platform} {P : Type}.

Variable normalize : value -> result P.

(** [loadExternalData]: [fetched] is the outcome of the [fetch] (rejected
    or resolved). Everything happens inside one [try] whose [catch] only
    logs. *)
Definition loadExternalData (fetched : result Response.t)
    (s : App.State P) : App.State P :=
  match fetched with
  | inl _ => s
  | inr response =>
      if Response.ok response then
        match Response.contentType response with
        | Some contentType =>
            if negb (contentType =? "")
               && includes contentType "application/json"
            then
              match Response.json response with
              | inr (Arr items) =>
                  match mapM normalize items with
                  | inr mappedProjects => App.setAllProjects mappedProjects s
                  | inl _ => s
                  end
              | _ => s
              end
            else s
        | None => s
        end
      else s
  end.

End Startup.

Section ThresholdInput.

(** [parseInt(text, 10)] *)
Variable parseInt : string -> float.

(** What the "Minimum Projects" input hands to
    [onMinProjectsCountChange]:
    [isNaN(value) || value < 0 ? 0 : value]. *)
Definition minProjectsInput (text : string) : float :=
  let value := parseInt text in
  if PrimFloat.is_nan value || (value <? 0)%float then 0%float else value.

End ThresholdInput.

(** What [MapUpdater] asks of the map. *)
Inductive MapCall : Type :=
| FitBounds (southWest northEast : float * float)
| SetView (center : float * float) (zoom : float).

(** A coordinate used as a number; [null] converts to 0. *)
Definition coordinateNumber (c : option float) : float :=
  match c with
  | Some x => x
  | None => 0%float
  end.

(** [p.latitude && p.longitude], as a condition. *)
Definition hasPosition {T : Type} (p : ProjectOf T) : bool :=
  coordinateTruthy (latitude p) && coordinateTruthy (longitude p).

(** The effect of [MapUpdater]: fit the bounds of the records that have a
    position, or, for an empty list, go back to the default view. A list
    with records but no position leaves the map alone. *)
Definition MapUpdater {T : Type} (projects : list (ProjectOf T))
  : option MapCall :=
  if (0 <? List.length projects)%nat then
    let validProjects := filter hasPosition projects in
    if (0 <? List.length validProjects)%nat then
      let latitudes := map (fun p => coordinateNumber (latitude p)) validProjects in
      let longitudes := map (fun p => coordinateNumber (longitude p)) validProjects in
      Some (FitBounds
              (PriceChart.Math_min latitudes, PriceChart.Math_min longitudes)
              (PriceChart.Math_max latitudes, PriceChart.Math_max longitudes))
    else None
  else Some (SetView (16.047079%float, 108.206230%float) 6%float).

(* ===================================================================== *)
(** ** What the specification asks for *)
(* ===================================================================== *)

(** [out] is [l] with exactly the elements satisfying [keep], in the order
    of [l]. *)
Inductive StableFilter {A : Type} (keep : A -> Prop)
  : list A -> list A -> Prop :=
| SF_nil : StableFilter keep [] []
| SF_keep x l out :
    keep x -> StableFilter keep l out -> StableFilter keep (x :: l) (x :: out)
| SF_drop x l out :
    ~ keep x -> StableFilter keep l out -> StableFilter keep (x :: l) out.

(** Ascending in the order of the default [sort()]: by code units. *)
Definition codeUnitAscending (l : list string) : Prop :=
  StronglySorted (fun a b => codeUnitLeb a b = true) l.

(** A record with the given name, province, district and investor, and
    nothing else of interest. *)
Definition sampleProject (name province district investor : string)
  : Project :=
  mkProject name "#" province district "N/A" None None "N/A" "N/A" "N/A"
    investor (Obj []) Null.

Section Specification.

Context {PF : Platform}.

(** Ascending in the order of [localeCompare]. *)
Definition localeAscending (l : list string) : Prop :=
  StronglySorted (fun a b => localeCompare a b <> Gt) l.

(** The conditions as the specification words them. *)
Definition blank (text : string) : Prop := text = "" \/ trim text = "".

Inductive normalizesTo (text : string) : string -> Prop :=
| normalizes_blank : blank text -> normalizesTo text "N/A"
| normalizes_kept : ~ blank text -> normalizesTo text text.

Definition containsIgnoringCase (text query : string) : Prop :=
  exists pre post,
    toLowerCase text = (pre ++ toLowerCase query ++ post)%string.

Definition passes (s : App.State Project) (p : Project) : Prop :=
  (App.selectedProvince s = "All" \/ province p = App.selectedProvince s)
  /\ (App.selectedDistrict s = "All" \/ district p = App.selectedDistrict s)
  /\ (App.selectedInvestor s = "All"
      \/ normalizesTo (investor p) (App.selectedInvestor s))
  /\ (App.searchQuery s = ""
      \/ containsIgnoringCase (name p) (App.searchQuery s))
  /\ (App.investorSearchQuery s = ""
      \/ exists n, normalizesTo (investor p) n
                   /\ containsIgnoringCase n (App.investorSearchQuery s)).

(** How many of the records in the selected province and district carry
    the investor name [n] after normalization. *)
Definition scopedCount (allProjects : list Project)
    (selectedProvince selectedDistrict : string) (n : string) : nat :=
  count_occ string_dec
    (map normalizedInvestor
       (relevantProjects allProjects selectedProvince selectedDistrict))
    n.

(** [counts] tallies the names seen so far, [c] times each: exact numbers
    for ordinary names, nothing or text for inherited ones. *)
Definition tallies (counts : list (string * Investor.Count))
    (c : string -> nat) : Prop :=
  NoDup (map fst counts)
  /\ (forall n, inherited n = false ->
        lookup n counts
        = if (c n =? 0)%nat then None else Some (Investor.Number (c n)))
  /\ (forall n, inherited n = true ->
        lookup n counts = None \/ lookup n counts = Some Investor.Text).

Definition jsonFile (file : File.t) : bool :=
  (File.type file =? "application/json") || App.endsWith (File.name file) ".json".

Definition csvFile (file : File.t) : bool :=
  (File.type file =? "text/csv") || App.endsWith (File.name file) ".csv".

(** The ways an upload fails, each with the message it leaves. The last
    case covers every exception raised while the file is processed (a JSON
    syntax error, the CSV parser failing to load, the normalizer throwing);
    the three before it are instances of it. *)
Inductive UploadFailure (file : File.t) (papaLoads : bool)
  : string -> Prop :=
| unreadable_file :
    File.text file = None ->
    UploadFailure file papaLoads "Failed to read the file."
| unsupported_type content :
    File.text file = Some content ->
    jsonFile file = false -> csvFile file = false ->
    UploadFailure file papaLoads
      "Unsupported file type. Please upload a .csv or .json file."
| not_an_array content v :
    File.text file = Some content ->
    jsonFile file = true ->
    JSON_parse content = inr v ->
    (forall items, v <> Arr items) ->
    UploadFailure file papaLoads
      "Invalid JSON format. Expected an array of projects."
| csv_row_error content e rest :
    File.text file = Some content ->
    jsonFile file = false -> csvFile file = true ->
    papaLoads = true ->
    errors (Papa_parse content) = e :: rest ->
    UploadFailure file papaLoads
      ("CSV parsing error on row " ++ App.showNat (row e) ++ ": " ++ message e)
| processing_error content e :
    File.text file = Some content ->
    App.processFile transformItemToProject file papaLoads content = inl e ->
    UploadFailure file papaLoads (App.errorText e).

(** The value a text field takes: the canonical key if it holds something
    truthy, else the alias, else the default. *)
Definition textField (item : value) (k alias dflt : string) : value :=
  prop item k ||| prop item alias ||| Str dflt.

Definition latOperand (item : value) : value :=
  prop item "latitude" ||| prop item "Latitude" ||| prop item "lat".

Definition lngOperand (item : value) : value :=
  prop item "longitude" ||| prop item "Longitude" ||| prop item "long".

(** The record built from an item once its two coordinates are parsed. *)
Definition normalizedRecord (item : value) (lat lng : float) : RawProject :=
  {| name := textField item "name" "Tên Dự Án" "N/A";
     projectUrl := textField item "projectUrl" "URL Dự Án" "#";
     province := textField item "province" "Cấp 2" "N/A";
     district := textField item "district" "Cấp 3" "N/A";
     category := textField item "category" "Cấp 4" "N/A";
     latitude := coordinate lat;
     longitude := coordinate lng;
     area := textField item "area" "Diện tích" "N/A";
     units := textField item "units" "Số căn" "N/A";
     towers := textField item "towers" "Số tòa" "N/A";
     investor := textField item "investor" "Chủ đầu tư" "N/A";
     attributes :=
       mergeAttributes (prop item "attributes" ||| Obj [])
         (prop item "Attributes (Other)");
     priceHistory := prop item "priceHistory" ||| Null |}.




End Specification.

(* ===================================================================== *)
(** ** The interface as a transition system *)
(* ===================================================================== *)

Section Machine.

Context {PF : Platform}.

(** The normalizer at its declared type, [(item: any) => Project]. *)
Variable normalize : value -> result Project.

(** What can happen to the application between two update cycles. *)
Inductive Event : Type :=
| ProvinceChange (province : string)
| DistrictChange (district : string)
| InvestorChange (investor : string)
| ShowLabelsChange (v : bool)
| MinProjectsCountChange (count : nat)
| SearchChange (query : string)
| InvestorSearchChange (query : string)
| ExternalDataLoaded (projects : list Project)
| FileUpload (file : File.t) (papaLoads : bool).

Definition handle (e : Event) (s : App.State Project) : App.State Project :=
  match e with
  | ProvinceChange province => App.handleProvinceChange province s
  | DistrictChange district => App.handleDistrictChange district s
  | InvestorChange investor => App.handleInvestorChange investor s
  | ShowLabelsChange v => App.handleShowLabelsChange v s
  | MinProjectsCountChange count => App.handleMinProjectsCountChange count s
  | SearchChange query => App.handleSearchChange query s
  | InvestorSearchChange query => App.handleInvestorSearchChange query s
  | ExternalDataLoaded projects => App.setAllProjects projects s
  | FileUpload file papaLoads => App.handleFileUpload normalize file papaLoads s
  end.

(** An update cycle: the handler, then renders and effects until quiet. *)
Definition step (e : Event) (s : App.State Project) : App.State Project :=
  App.settle (handle e s).

(** The states the interface is in when an update cycle is over, starting
    from the record set [projects]. *)
Inductive reachable (projects : list Project) : App.State Project -> Prop :=
| reachable_mount : reachable projects (App.settle (App.initialState projects))
| reachable_step s e :
    reachable projects s -> reachable projects (step e s).

(** The selection is one the investor dropdown offers. *)
Definition selectionValid (s : App.State Project) : Prop :=
  App.selectedInvestor s = "All"
  \/ In (App.selectedInvestor s) (map Investor.name (App.roster s)).

End Machine.

(* ===================================================================== *)
(** ** Notions used by the further properties *)
(* ===================================================================== *)

(** Whether ToString succeeds: no object with a [toString] entry of its
    own, at any depth of arrays. *)
Fixpoint stringifies (v : value) : bool :=
  match v with
  | Arr xs => forallb stringifies xs
  | Obj props => negb (hasOwn "toString" props)
  | _ => true
  end.

(** The comma-joined text of an array's elements, as ToString builds it. *)
Fixpoint joinElements {PF : Platform} (l : list value) : result string :=
  match l with
  | [] => ret ""
  | x :: rest =>
      s <- (if isNullish x then ret "" else ToString x) ;;
      match rest with
      | [] => ret s
      | _ => r <- joinElements rest ;; ret (s ++ "," ++ r)%string
      end
  end.

(** A position inside the rectangle spanned by two corners. *)
Definition within (southWest northEast position : float * float) : Prop :=
  (fst southWest <=? fst position)%float = true
  /\ (fst position <=? fst northEast)%float = true
  /\ (snd southWest <=? snd position)%float = true
  /\ (snd position <=? snd northEast)%float = true.




(* ===================================================================== *)
(** ** Filtered project list *)
(* ===================================================================== *)

Lemma filter_StableFilter {A : Type} (keep : A -> Prop) (f : A -> bool)
    (l : list A) :
  (forall x, f x = true <-> keep x) -> StableFilter keep l (filter f l).
Proof.
  intros Hf. induction l as [|x l IH]; simpl.
  - constructor.
  - destruct (f x) eqn:E.
    + apply SF_keep; [apply Hf; exact E | exact IH].
    + apply SF_drop; [| exact IH].
      intro K. apply Hf in K. congruence.
Qed.

Lemma StableFilter_In {A : Type} (keep : A -> Prop) (l out : list A) :
  StableFilter keep l out ->
  forall x, In x out <-> In x l /\ keep x.
Proof.
  induction 1 as [|x l out K _ IH|x l out K _ IH]; intros y; simpl.
  - tauto.
  - rewrite IH. split.
    + intros [->|[? ?]]; auto.
    + intros [[->|?] ?]; auto.
  - rewrite IH. split.
    + intros [? ?]; auto.
    + intros [[->|?] ?]; [contradiction | auto].
Qed.

Lemma prefix_append (p s : string) :
  String.prefix p s = true <-> exists post, s = (p ++ post)%string.
Proof.
  revert s. induction p as [|c p IH]; intros s; simpl.
  - destruct s; split; eauto.
  - destruct s as [|d s]; simpl.
    + split; [discriminate | intros [post H]; discriminate H].
    + destruct (Ascii.ascii_dec c d) as [->|N].
      * rewrite IH. split; intros [post H]; exists post.
        -- now rewrite H.
        -- now injection H.
      * split; [discriminate | intros [post H]; injection H; intros; congruence].
Qed.

Lemma includes_unfold (s sub : string) :
  includes s sub =
  String.prefix sub s
  || match s with
     | EmptyString => false
     | String _ t => includes t sub
     end.
Proof. destruct s; reflexivity. Qed.

Lemma includes_spec (s sub : string) :
  includes s sub = true <->
  exists pre post, s = (pre ++ sub ++ post)%string.
Proof.
  split.
  - induction s as [|c s IH]; rewrite includes_unfold, orb_true_iff.
    + intros [H|H]; [| discriminate H].
      apply prefix_append in H. destruct H as [post H]. now exists "", post.
    + intros [H|H].
      * apply prefix_append in H. destruct H as [post H]. now exists "", post.
      * destruct (IH H) as [pre [post E]].
        exists (String c pre), post. simpl. now rewrite E.
  - intros [pre [post E]]. revert s E.
    induction pre as [|c pre IH]; intros s E; simpl in E.
    + rewrite includes_unfold, orb_true_iff. left.
      apply prefix_append. now exists post.
    + subst s. rewrite includes_unfold, orb_true_iff. right. now apply IH.
Qed.

Section FilterSpec.

Context {PF : Platform}.

Lemma blank_dec (text : string) :
  (negb (text =? "") && negb (trim text =? "") = false <-> blank text).
Proof.
  unfold blank.
  destruct (String.eqb_spec text ""), (String.eqb_spec (trim text) "");
    simpl; split; intro H; auto; try discriminate H; tauto.
Qed.

Lemma normalizedInvestor_normalizes (p : Project) :
  normalizesTo (investor p) (normalizedInvestor p).
Proof.
  unfold normalizedInvestor.
  destruct (negb (investor p =? "") && negb (trim (investor p) =? "")) eqn:E.
  - apply normalizes_kept. intro B. apply blank_dec in B. congruence.
  - apply normalizes_blank. now apply blank_dec.
Qed.

Lemma normalizesTo_unique (text a b : string) :
  normalizesTo text a -> normalizesTo text b -> a = b.
Proof.
  intros Ha Hb. inversion Ha; inversion Hb; subst;
    try reflexivity; exfalso; eauto.
Qed.

Lemma normalizesTo_iff (p : Project) (n : string) :
  normalizesTo (investor p) n <-> normalizedInvestor p = n.
Proof.
  split.
  - intro H. eapply normalizesTo_unique; [apply normalizedInvestor_normalizes | exact H].
  - intros <-. apply normalizedInvestor_normalizes.
Qed.

Lemma includes_lower (text query : string) :
  includes (toLowerCase text) (toLowerCase query) = true
  <-> containsIgnoringCase text query.
Proof. apply includes_spec. Qed.

Lemma nameSearch_spec (text query : string) :
  query <> "" ->
  (negb (text =? "") && includes (toLowerCase text) (toLowerCase query) = true
   <-> containsIgnoringCase text query).
Proof.
  intros Q. rewrite andb_true_iff, includes_lower. split; [tauto|].
  intros C. split; [| exact C].
  destruct (String.eqb_spec text "") as [->|]; [| reflexivity].
  exfalso. destruct C as [pre [post E]].
  rewrite (proj2 (toLowerCase_empty "") eq_refl) in E.
  destruct pre; [| discriminate E]. simpl in E.
  destruct (toLowerCase query) eqn:L; [| discriminate E].
  exact (Q (proj1 (toLowerCase_empty query) L)).
Qed.

Lemma projectMatches_passes (s : App.State Project) (p : Project) :
  projectMatches (App.selectedProvince s) (App.selectedDistrict s)
    (App.selectedInvestor s) (App.minProjectsCount s) (App.searchQuery s)
    (App.investorSearchQuery s) p = true
  <-> passes s p.
Proof.
  unfold projectMatches, passes.
  rewrite !andb_true_iff, !orb_true_iff, !String.eqb_eq.
  assert (I : (if negb (App.selectedInvestor s =? "All")
               then normalizedInvestor p =? App.selectedInvestor s
               else if (0 <? App.minProjectsCount s)%nat then true else true)
              = true
              <-> App.selectedInvestor s = "All"
                  \/ normalizesTo (investor p) (App.selectedInvestor s)).
  { rewrite normalizesTo_iff.
    destruct (String.eqb_spec (App.selectedInvestor s) "All") as [E|E]; simpl.
    - destruct (0 <? App.minProjectsCount s)%nat; tauto.
    - rewrite String.eqb_eq. tauto. }
  assert (N : App.searchQuery s = ""
              \/ negb (name p =? "")
                 && includes (toLowerCase (name p))
                      (toLowerCase (App.searchQuery s)) = true
              <-> App.searchQuery s = ""
                  \/ containsIgnoringCase (name p) (App.searchQuery s)).
  { destruct (String.eqb_spec (App.searchQuery s) "") as [E|E]; [tauto|].
    rewrite (nameSearch_spec _ _ E). tauto. }
  assert (V : App.investorSearchQuery s = ""
              \/ includes (toLowerCase (normalizedInvestor p))
                   (toLowerCase (App.investorSearchQuery s)) = true
              <-> App.investorSearchQuery s = ""
                  \/ exists n, normalizesTo (investor p) n
                       /\ containsIgnoringCase n (App.investorSearchQuery s)).
  { rewrite includes_lower. split; (intros [H|H]; [now left | right]).
    - exists (normalizedInvestor p). split; [apply normalizedInvestor_normalizes | exact H].
    - destruct H as [n [Hn C]]. apply normalizesTo_iff in Hn. now subst n. }
  tauto.
Qed.

(** C1. The filtered project list is the record set restricted, in input
    order, to exactly the records that satisfy the five conditions
    (province, district, normalized investor, name query, investor query);
    the minimum-count threshold plays no part in it. *)
Theorem filtered_projects_exact (s : App.State Project) :
  StableFilter (passes s) (App.allProjects s) (App.filtered s)
  /\ (forall p, In p (App.filtered s) <-> In p (App.allProjects s) /\ passes s p)
  /\ (forall T, App.filtered (App.setMinProjectsCount T s) = App.filtered s).
Proof.
  assert (SF : StableFilter (passes s) (App.allProjects s) (App.filtered s)).
  { unfold App.filtered, filterProjects.
    apply filter_StableFilter. intro p. apply projectMatches_passes. }
  split; [exact SF | split].
  - apply StableFilter_In. exact SF.
  - intro T. unfold App.filtered, filterProjects. simpl.
    apply filter_ext. intro p. unfold projectMatches.
    destruct (0 <? T)%nat, (0 <? App.minProjectsCount s)%nat; reflexivity.
Qed.

End FilterSpec.

(* ===================================================================== *)
(** ** Sorting and [Set] *)
(* ===================================================================== *)

Section Sorting.

Context {A : Type} (le : A -> A -> bool).

Lemma insertSorted_perm (x : A) (l : list A) :
  Permutation (insertSorted le x l) (x :: l).
Proof.
  induction l as [|y l IH]; simpl.
  - apply Permutation_refl.
  - destruct (le x y).
    + apply Permutation_refl.
    + eapply Permutation_trans; [apply perm_skip, IH | apply perm_swap].
Qed.

Lemma sortBy_perm (l : list A) : Permutation (sortBy le l) l.
Proof.
  induction l as [|x l IH]; simpl.
  - apply Permutation_refl.
  - eapply Permutation_trans; [apply insertSorted_perm | apply perm_skip, IH].
Qed.

Lemma sortBy_In (l : list A) (x : A) : In x (sortBy le l) <-> In x l.
Proof.
  split; apply Permutation_in; [| apply Permutation_sym]; apply sortBy_perm.
Qed.

Lemma sortBy_length (l : list A) : List.length (sortBy le l) = List.length l.
Proof. apply Permutation_length, sortBy_perm. Qed.

Hypothesis le_total : forall a b, le a b = true \/ le b a = true.

Lemma insertSorted_sorted (x : A) (l : list A) :
  Sorted (fun a b => le a b = true) l ->
  Sorted (fun a b => le a b = true) (insertSorted le x l).
Proof.
  induction 1 as [|y l S IH H]; simpl.
  - repeat constructor.
  - destruct (le x y) eqn:E.
    + constructor; [constructor; assumption | constructor; exact E].
    + constructor; [exact IH |].
      assert (Y : le y x = true)
        by (destruct (le_total x y) as [T|T]; [congruence | exact T]).
      destruct H as [|z l' H]; simpl.
      * constructor. exact Y.
      * destruct (le x z); constructor; assumption.
Qed.

Lemma sortBy_sorted (l : list A) :
  Sorted (fun a b => le a b = true) (sortBy le l).
Proof.
  induction l as [|x l IH]; simpl.
  - constructor.
  - apply insertSorted_sorted, IH.
Qed.

End Sorting.

Lemma newSet_spec (l : list string) :
  NoDup (newSet l) /\ forall x, In x (newSet l) <-> In x l.
Proof.
  unfold newSet.
  assert (G : forall seen, NoDup seen ->
              NoDup (fold_left setAdd l seen)
              /\ forall x, In x (fold_left setAdd l seen) <-> In x seen \/ In x l).
  { induction l as [|y l IH]; intros seen ND; simpl.
    - split; [exact ND | intro x; tauto].
    - assert (M : existsb (String.eqb y) seen = true <-> In y seen).
      { rewrite existsb_exists. split.
        - intros [z [Hz E]]. apply String.eqb_eq in E. now subst z.
        - intro Hy. exists y. split; [exact Hy | apply String.eqb_refl]. }
      unfold setAdd at 2 4. destruct (existsb (String.eqb y) seen) eqn:E.
      + destruct (IH seen ND) as [N I]. split; [exact N |].
        intro x. rewrite I. split; [tauto |].
        intros [?|[<-|?]]; auto. left. now apply M.
      + assert (ND' : NoDup (seen ++ [y])).
        { apply NoDup_app; [exact ND | repeat constructor; simpl; tauto |].
          intros z Hz [<-|[]]. apply M in Hz. congruence. }
        destruct (IH _ ND') as [N I]. split; [exact N |].
        intro x. rewrite I, in_app_iff. simpl. tauto. }
  destruct (G [] (NoDup_nil _)) as [N I]. split; [exact N |].
  intro x. rewrite I. simpl. tauto.
Qed.

(** Code-unit order is total and transitive. *)
Lemma compareUnits_antisym (a b : list N) :
  compareUnits b a = CompOpp (compareUnits a b).
Proof.
  revert b. induction a as [|x a IH]; intros [|y b]; simpl; try reflexivity.
  rewrite (N.compare_antisym x y).
  destruct (x ?= y)%N; simpl; [apply IH | reflexivity | reflexivity].
Qed.

Lemma codeUnitLeb_total (s t : string) :
  codeUnitLeb s t = true \/ codeUnitLeb t s = true.
Proof.
  unfold codeUnitLeb. rewrite (compareUnits_antisym (codeUnits s)).
  destruct (compareUnits (codeUnits s) (codeUnits t)); simpl; auto.
Qed.

Lemma compareUnits_trans (a b c : list N) :
  compareUnits a b <> Gt -> compareUnits b c <> Gt -> compareUnits a c <> Gt.
Proof.
  revert b c.
  induction a as [|x a IH]; intros [|y b] [|z c]; simpl; try congruence.
  destruct (N.compare_spec x y) as [E1|L1|G1]; try congruence.
  - subst y. destruct (x ?= z)%N; try congruence. apply IH.
  - destruct (N.compare_spec y z) as [E2|L2|G2]; try congruence.
    + subst z. intros _ _.
      destruct (N.compare_spec x y); try discriminate; lia.
    + intros _ _. destruct (N.compare_spec x z); try discriminate; lia.
Qed.

Lemma codeUnitLeb_trans (a b c : string) :
  codeUnitLeb a b = true -> codeUnitLeb b c = true -> codeUnitLeb a c = true.
Proof.
  unfold codeUnitLeb. intros H1 H2.
  pose proof (compareUnits_trans (codeUnits a) (codeUnits b) (codeUnits c)) as T.
  destruct (compareUnits (codeUnits a) (codeUnits b)); try discriminate H1;
    destruct (compareUnits (codeUnits b) (codeUnits c)); try discriminate H2;
    destruct (compareUnits (codeUnits a) (codeUnits c)); try reflexivity;
    exfalso; (apply T; [discriminate | discriminate | reflexivity]).
Qed.

(** The text of a code unit is read back as that unit: checked on each of
    the 65536 units. *)
Lemma allBits_spec (f : N -> bool) (depth : nat) :
  forall prefix u,
    allBits depth prefix f = true ->
    (prefix * 2 ^ N.of_nat depth <= u < (prefix + 1) * 2 ^ N.of_nat depth)%N ->
    f u = true.
Proof.
  induction depth as [|d IH]; intros p u H B.
  - simpl in *. assert (u = p) by lia. now subst.
  - simpl in H. apply andb_prop in H. destruct H as [H0 H1].
    rewrite Nat2N.inj_succ, N.pow_succ_r' in B.
    set (k := (2 ^ N.of_nat d)%N) in *.
    destruct (N.lt_ge_cases u ((2 * p + 1) * k)) as [L|G].
    + apply (IH (2 * p)%N u H0). fold k. nia.
    + apply (IH (2 * p + 1)%N u H1). fold k. nia.
Qed.

Lemma unitRoundTrip_all : allBits 16 0 unitRoundTrip = true.
Proof. vm_compute. reflexivity. Qed.

Lemma codeUnits_unitText (u : N) :
  (u < 65536)%N -> codeUnits (unitText u) = [u].
Proof.
  intro H.
  pose proof (allBits_spec unitRoundTrip 16 0 u unitRoundTrip_all) as R.
  assert (B : (0 * 2 ^ N.of_nat 16 <= u < (0 + 1) * 2 ^ N.of_nat 16)%N).
  { change (2 ^ N.of_nat 16)%N with 65536%N. lia. }
  specialize (R B). unfold unitRoundTrip in R.
  destruct (codeUnits (unitText u)) as [|v [|w l]]; try discriminate R.
  apply N.eqb_eq in R. now subst.
Qed.

(** The spread of a string has one entry for each code unit: two for a
    character beyond the Basic Multilingual Plane, one for an accented
    letter. *)
Example chars_by_code_unit :
  List.length (chars "a😀") = 3
  /\ chars "é" = [Str "é"]
  /\ map (fun v => match v with Str t => codeUnits t | _ => [] end)
         (chars "a😀")
     = [[97%N]; [55357%N]; [56832%N]].
Proof. repeat split. Qed.

(* ===================================================================== *)
(** ** Province list *)
(* ===================================================================== *)

Lemma sortBy_leb_ascending (l : list string) :
  codeUnitAscending (sortBy codeUnitLeb l).
Proof.
  apply Sorted_StronglySorted.
  - intros a b c. apply codeUnitLeb_trans.
  - apply sortBy_sorted. apply codeUnitLeb_total.
Qed.

Lemma provinces_members (allProjects : list Project) (x : string) :
  In x (provinces allProjects)
  <-> x <> "" /\ exists p, In p allProjects /\ province p = x.
Proof.
  unfold provinces. rewrite sortBy_In.
  rewrite (proj2 (newSet_spec _)).
  rewrite filter_In, in_map_iff, negb_true_iff, String.eqb_neq.
  split.
  - intros [[p [E H]] N]. split; [exact N | exists p; auto].
  - intros [N [p [H E]]]. split; [exists p; auto | exact N].
Qed.

(** C4, as the code has it. The province list holds each non-empty
    province value of the record set exactly once, in ascending code-unit
    order (the order of [sort()] without a comparator). *)
Theorem provinces_distinct_sorted (allProjects : list Project) :
  codeUnitAscending (provinces allProjects)
  /\ NoDup (provinces allProjects)
  /\ (forall x, In x (provinces allProjects)
                <-> x <> "" /\ exists p, In p allProjects /\ province p = x).
Proof.
  unfold provinces.
  set (raw := filter (fun s => negb (s =? "")) (map province allProjects)).
  destruct (newSet_spec raw) as [ND I].
  split; [apply sortBy_leb_ascending | split].
  - eapply Permutation_NoDup; [apply Permutation_sym, sortBy_perm | exact ND].
  - intro x. rewrite sortBy_In, I. unfold raw.
    rewrite filter_In, in_map_iff, negb_true_iff, String.eqb_neq.
    split.
    + intros [[p [E H]] N]. split; [exact N | exists p; auto].
    + intros [N [p [H E]]]. split; [exists p; auto | exact N].
Qed.

(** C4 as stated fails: with provinces "Hue" and "hanoi" the list comes out
    as Hue, hanoi, while [localeCompare] puts hanoi first. *)
Lemma provinces_not_locale_sorted :
  provinces [sampleProject "A" "hanoi" "Ba Dinh" "X";
             sampleProject "B" "Hue" "Phu Vang" "Y"] = ["Hue"; "hanoi"]
  /\ ~ localeAscending (PF := Example.platform)
         (provinces [sampleProject "A" "hanoi" "Ba Dinh" "X";
                     sampleProject "B" "Hue" "Phu Vang" "Y"]).
Proof.
  split; [reflexivity |].
  intro S. inversion S as [|a l _ F]; subst.
  inversion F as [|b l' C _]; subst.
  apply C. reflexivity.
Qed.

(** Code units are not code points. A character beyond the Basic
    Multilingual Plane is a surrogate pair that starts at D83D, and so it
    sorts before the full-width letter at FF21, although its code point
    and its UTF-8 bytes are the larger ones. *)
Example provinces_surrogate_pair_first :
  codeUnits "😀" = [55357%N; 56832%N]
  /\ codeUnits "Ａ" = [65313%N]
  /\ String.leb "Ａ" "😀" = true
  /\ provinces [sampleProject "A" "Ａ" "Ba Dinh" "X";
                sampleProject "B" "😀" "Phu Vang" "Y"] = ["😀"; "Ａ"].
Proof. repeat split. Qed.

(** Text within the Basic Multilingual Plane: an accented letter is one
    code unit, and "Đ" (U+0110) comes after "V". *)
Example provinces_accented :
  codeUnits "Huế" = [72%N; 117%N; 7871%N]
  /\ provinces [sampleProject "A" "Đồng Nai" "Bien Hoa" "X";
                sampleProject "B" "Vĩnh Long" "Long Ho" "Y"]
     = ["Vĩnh Long"; "Đồng Nai"].
Proof. repeat split. Qed.

(* ===================================================================== *)
(** ** Own properties: lookup and assignment *)
(* ===================================================================== *)

Section OwnProperties.

Context {A : Type}.

Implicit Types (k : string) (v : A) (l : list (string * A)).

Lemma lookup_assign_eq k v l : lookup k (assign k v l) = Some v.
Proof.
  induction l as [|[k' v'] l IH]; simpl.
  - now rewrite String.eqb_refl.
  - destruct (String.eqb_spec k' k) as [E|E]; simpl.
    + now rewrite String.eqb_refl.
    + destruct (String.eqb_spec k' k); [contradiction | exact IH].
Qed.

Lemma lookup_assign_ne k k' v l :
  k <> k' -> lookup k' (assign k v l) = lookup k' l.
Proof.
  intro N. induction l as [|[k0 v0] l IH]; simpl.
  - destruct (String.eqb_spec k k'); [contradiction | reflexivity].
  - destruct (String.eqb_spec k0 k) as [E|E]; simpl.
    + subst k0. destruct (String.eqb_spec k k'); [contradiction | reflexivity].
    + destruct (String.eqb_spec k0 k'); [reflexivity | exact IH].
Qed.

Lemma keys_assign_In k k' v l :
  In k' (map fst (assign k v l)) <-> k' = k \/ In k' (map fst l).
Proof.
  induction l as [|[k0 v0] l IH]; simpl.
  - intuition.
  - destruct (String.eqb_spec k0 k) as [E|E]; simpl.
    + subst k0. intuition.
    + rewrite IH. intuition.
Qed.

Lemma NoDup_assign k v l :
  NoDup (map fst l) -> NoDup (map fst (assign k v l)).
Proof.
  induction l as [|[k0 v0] l IH]; simpl; intro ND.
  - repeat constructor. simpl. tauto.
  - inversion ND as [|? ? NI ND']; subst.
    destruct (String.eqb_spec k0 k) as [E|E]; simpl.
    + subst k0. now constructor.
    + constructor; [| now apply IH].
      rewrite keys_assign_In. intros [->|H]; [now apply E | contradiction].
Qed.

Lemma lookup_None k l : lookup k l = None <-> ~ In k (map fst l).
Proof.
  induction l as [|[k0 v0] l IH]; simpl.
  - tauto.
  - destruct (String.eqb_spec k0 k) as [E|E].
    + split; [discriminate | intro H; exfalso; apply H; now left].
    + rewrite IH. tauto.
Qed.

Lemma In_lookup k v l :
  NoDup (map fst l) -> (In (k, v) l <-> lookup k l = Some v).
Proof.
  induction l as [|[k0 v0] l IH]; simpl; intro ND.
  - split; [tauto | discriminate].
  - inversion ND as [|? ? NI ND']; subst.
    destruct (String.eqb_spec k0 k) as [E|E].
    + subst k0. split.
      * intros [H|H]; [now inversion H |].
        exfalso. apply NI. apply in_map_iff. now exists (k, v).
      * intro H. left. now inversion H.
    + rewrite <- (IH ND'). split.
      * intros [H|H]; [inversion H; contradiction | exact H].
      * auto.
Qed.

End OwnProperties.

(* ===================================================================== *)
(** ** Investor roster *)
(* ===================================================================== *)

Section Roster.

Context {PF : Platform}.

Lemma tallies_ext counts (c c' : string -> nat) :
  (forall n, c n = c' n) -> tallies counts c -> tallies counts c'.
Proof.
  intros E [ND [Ord Inh]]. split; [exact ND | split; [| exact Inh]].
  intros n H. rewrite <- E. now apply Ord.
Qed.

Lemma countInvestor_tallies counts c (m : string) :
  tallies counts c ->
  tallies (countInvestor counts m)
    (fun n => c n + if string_dec m n then 1 else 0).
Proof.
  intros [ND [Ord Inh]]. unfold countInvestor.
  destruct (inherited m) eqn:Hm.
  - (* a name found on the prototype *)
    assert (Keep : forall counts',
               NoDup (map fst counts') ->
               (forall n, n <> m -> lookup n counts' = lookup n counts) ->
               (lookup m counts' = None \/ lookup m counts' = Some Investor.Text) ->
               tallies counts' (fun n => c n + if string_dec m n then 1 else 0)).
    { intros counts' ND' Same Own. split; [exact ND' | split].
      - intros n Hn. destruct (string_dec m n) as [->|N]; [congruence |].
        rewrite Same by congruence. rewrite Nat.add_0_r. now apply Ord.
      - intros n Hn. destruct (String.string_dec n m) as [->|N]; [exact Own |].
        rewrite Same by exact N. now apply Inh. }
    destruct (Inh m Hm) as [L|L]; rewrite L.
    + destruct (String.eqb_spec m "__proto__") as [P|P].
      * apply Keep; auto.
      * apply Keep.
        -- now apply NoDup_assign.
        -- intros n N. apply lookup_assign_ne. congruence.
        -- right. apply lookup_assign_eq.
    + apply Keep.
      * now apply NoDup_assign.
      * intros n N. apply lookup_assign_ne. congruence.
      * right. apply lookup_assign_eq.
  - (* an ordinary name *)
    assert (Bump : forall k,
               k = c m + 1 ->
               tallies (assign m (Investor.Number k) counts)
                 (fun n => c n + if string_dec m n then 1 else 0)).
    { intros k ->. split; [now apply NoDup_assign | split].
      - intros n Hn. destruct (string_dec m n) as [<-|N].
        + rewrite lookup_assign_eq.
          destruct (Nat.eqb_spec (c m + 1) 0); [lia | reflexivity].
        + rewrite lookup_assign_ne by exact N.
          rewrite Nat.add_0_r. now apply Ord.
      - intros n Hn. rewrite lookup_assign_ne by congruence. now apply Inh. }
    pose proof (Ord m Hm) as L. rewrite L.
    destruct (Nat.eqb_spec (c m) 0) as [Z|Z].
    + apply Bump. lia.
    + apply Bump. reflexivity.
Qed.

Lemma fold_countInvestor_tallies (names : list string) counts c :
  tallies counts c ->
  tallies (fold_left countInvestor names counts)
    (fun n => c n + count_occ string_dec names n).
Proof.
  revert counts c. induction names as [|m names IH]; intros counts c T; simpl.
  - eapply tallies_ext; [| exact T]. intro n. lia.
  - eapply tallies_ext; [| apply IH, countInvestor_tallies, T].
    intro n. simpl. destruct (string_dec m n); lia.
Qed.

Lemma investorCounts_names (projects : list Project) :
  investorCounts projects
  = fold_left countInvestor (map normalizedInvestor projects) [].
Proof.
  unfold investorCounts. generalize (@nil (string * Investor.Count)).
  induction projects as [|p projects IH]; intro acc; simpl.
  - reflexivity.
  - apply IH.
Qed.

Lemma investorCounts_tallies (projects : list Project) :
  tallies (investorCounts projects)
    (count_occ string_dec (map normalizedInvestor projects)).
Proof.
  rewrite investorCounts_names.
  eapply tallies_ext;
    [| apply (fold_countInvestor_tallies _ [] (fun _ => 0))].
  - intro n. reflexivity.
  - split; [constructor | split]; intros n _; simpl; auto.
Qed.

Lemma investorsData_In (allProjects : list Project)
    (selectedProvince selectedDistrict : string) (T : nat) (i : Investor.t) :
  In i (investorsData allProjects selectedProvince selectedDistrict T)
  <-> lookup (Investor.name i)
        (investorCounts
           (relevantProjects allProjects selectedProvince selectedDistrict))
      = Some (Investor.count i)
      /\ countAtLeast (Investor.count i) T = true.
Proof.
  unfold investorsData.
  set (counts := investorCounts _).
  destruct (investorCounts_tallies
              (relevantProjects allProjects selectedProvince selectedDistrict))
    as [ND _]. fold counts in ND.
  rewrite sortBy_In, filter_In, in_map_iff.
  rewrite <- (In_lookup _ _ _ ND).
  split.
  - intros [[[k v] [E H]] C]. subst i. simpl in *. auto.
  - intros [H C]. split; [| exact C].
    exists (Investor.name i, Investor.count i). split; [now destruct i | exact H].
Qed.

(** For a name that [Object.prototype] does not have, the roster holds it
    exactly when it occurs in scope and its count reaches the threshold,
    and holds it with that count. *)
Lemma roster_ordinary_name (allProjects : list Project)
    (selectedProvince selectedDistrict : string) (T : nat)
    (n : string) (cnt : Investor.Count) :
  inherited n = false ->
  (In (Investor.mk n cnt)
      (investorsData allProjects selectedProvince selectedDistrict T)
   <-> cnt = Investor.Number
               (scopedCount allProjects selectedProvince selectedDistrict n)
       /\ 1 <= scopedCount allProjects selectedProvince selectedDistrict n
       /\ T <= scopedCount allProjects selectedProvince selectedDistrict n).
Proof.
  intro Hn. rewrite investorsData_In. simpl.
  destruct (investorCounts_tallies
              (relevantProjects allProjects selectedProvince selectedDistrict))
    as [_ [Ord _]].
  rewrite (Ord n Hn). fold (scopedCount allProjects selectedProvince selectedDistrict n).
  destruct (Nat.eqb_spec (scopedCount allProjects selectedProvince selectedDistrict n) 0)
    as [Z|Z].
  - split; [intros [H _]; discriminate H | intros [_ [H _]]; lia].
  - split.
    + intros [H C]. inversion H; subst cnt. simpl in C.
      apply Nat.leb_le in C. repeat split; [lia | exact C].
    + intros [-> [_ H]]. split; [reflexivity |]. simpl. now apply Nat.leb_le.
Qed.

(** A name that [Object.prototype] has is never in the roster. *)
Lemma roster_inherited_name (allProjects : list Project)
    (selectedProvince selectedDistrict : string) (T : nat)
    (n : string) (cnt : Investor.Count) :
  inherited n = true ->
  ~ In (Investor.mk n cnt)
      (investorsData allProjects selectedProvince selectedDistrict T).
Proof.
  intros Hn H. apply investorsData_In in H. simpl in H. destruct H as [L C].
  destruct (investorCounts_tallies
              (relevantProjects allProjects selectedProvince selectedDistrict))
    as [_ [_ Inh]].
  destruct (Inh n Hn) as [E|E]; rewrite E in L; [discriminate L |].
  inversion L; subst cnt. discriminate C.
Qed.

Lemma filter_length_le {A : Type} (f g : A -> bool) (l : list A) :
  (forall x, f x = true -> g x = true) ->
  List.length (filter f l) <= List.length (filter g l).
Proof.
  intro H. induction l as [|x l IH]; simpl; [lia |].
  destruct (f x) eqn:F.
  - rewrite (H x F). simpl. lia.
  - destruct (g x); simpl; lia.
Qed.

(** Raising the threshold never lengthens the roster. *)
Lemma roster_threshold_monotone (allProjects : list Project)
    (selectedProvince selectedDistrict : string) (T T' : nat) :
  T <= T' ->
  List.length (investorsData allProjects selectedProvince selectedDistrict T')
  <= List.length (investorsData allProjects selectedProvince selectedDistrict T).
Proof.
  intro H. unfold investorsData. rewrite !sortBy_length.
  apply filter_length_le. intros [n [k|]]; simpl; [| discriminate].
  rewrite !Nat.leb_le. lia.
Qed.

End Roster.

(** C3 fails on the code. One record in scope carries the investor name
    "constructor", so its scoped count is 1 and the roster for threshold 0
    should list it with count 1; the roster is empty, because the tally
    reads the inherited [constructor] of the object literal instead of
    [undefined]. Next to an ordinary name the same record simply goes
    missing. *)
Theorem roster_misses_prototype_name :
  scopedCount (PF := Example.platform)
    [sampleProject "Tower" "Hanoi" "Ba Dinh" "constructor"] "All" "All"
    "constructor" = 1
  /\ investorsData (PF := Example.platform)
       [sampleProject "Tower" "Hanoi" "Ba Dinh" "constructor"] "All" "All" 0
     = []
  /\ investorsData (PF := Example.platform)
       [sampleProject "Tower" "Hanoi" "Ba Dinh" "constructor";
        sampleProject "Park" "Hanoi" "Ba Dinh" "Eco Corp"] "All" "All" 0
     = [Investor.mk "Eco Corp" (Investor.Number 1)].
Proof. repeat split; vm_compute; reflexivity. Qed.

(** The scenario of the specification: two records of one district, one
    without an investor, threshold 1. *)
Example roster_scenario :
  investorsData (PF := Example.platform)
    [sampleProject "A" "Dong Nai" "Bien Hoa" "Eco Corp";
     sampleProject "B" "Dong Nai" "Bien Hoa" ""] "Dong Nai" "All" 1
  = [Investor.mk "Eco Corp" (Investor.Number 1);
     Investor.mk "N/A" (Investor.Number 1)]
  /\ filterProjects (PF := Example.platform)
       [sampleProject "A" "Dong Nai" "Bien Hoa" "Eco Corp";
        sampleProject "B" "Dong Nai" "Bien Hoa" ""]
       "Dong Nai" "All" "All" 1 "" ""
     = [sampleProject "A" "Dong Nai" "Bien Hoa" "Eco Corp";
        sampleProject "B" "Dong Nai" "Bien Hoa" ""].
Proof. split; vm_compute; reflexivity. Qed.

(* ===================================================================== *)
(** ** Selection reconciliation *)
(* ===================================================================== *)

Section Reconciliation.

Context {PF : Platform}.

Variable normalize : value -> result Project.

Lemma eligible_In (r : list Investor.t) (x : string) :
  eligible r x = true <-> In x (map Investor.name r).
Proof.
  unfold eligible. rewrite existsb_exists, in_map_iff.
  split; intros [i [H1 H2]]; exists i.
  - apply String.eqb_eq in H2. auto.
  - rewrite String.eqb_eq. auto.
Qed.

Lemma reconcileEffect_valid (s : App.State Project) :
  selectionValid (App.reconcileEffect s).
Proof.
  unfold App.reconcileEffect, selectionValid.
  destruct (String.eqb_spec (App.selectedInvestor s) "All") as [E|E]; simpl.
  - now left.
  - destruct (eligible (App.roster s) (App.selectedInvestor s)) eqn:G; simpl.
    + right. now apply eligible_In.
    + now left.
Qed.

Lemma reconcileEffect_fixed (s : App.State Project) :
  selectionValid s -> App.reconcileEffect s = s.
Proof.
  unfold App.reconcileEffect, selectionValid. intros [E|H].
  - rewrite E. reflexivity.
  - apply eligible_In in H. rewrite H. now rewrite andb_false_r.
Qed.

Lemma effects_valid (s : App.State Project) : selectionValid (App.effects s).
Proof.
  unfold App.effects. pose proof (reconcileEffect_valid s) as V.
  exact V.
Qed.

(** After two rounds of effects a further round changes nothing. *)
Lemma effects_settle (s : App.State Project) :
  App.effects (App.settle s) = App.settle s.
Proof.
  unfold App.settle.
  pose proof (effects_valid s) as V1.
  set (s1 := App.effects s) in *.
  pose proof (effects_valid s1) as V2.
  assert (E1 : App.effects s1 = App.setFilteredProjects (App.filtered s1) s1).
  { unfold App.effects. now rewrite (reconcileEffect_fixed s1 V1). }
  rewrite E1 in V2 |- *.
  set (s2 := App.setFilteredProjects (App.filtered s1) s1) in *.
  unfold App.effects. rewrite (reconcileEffect_fixed s2 V2).
  reflexivity.
Qed.

Lemma settle_valid (s : App.State Project) : selectionValid (App.settle s).
Proof. apply effects_valid. Qed.

(** C7. Once an update cycle is over, the selected investor is "All" or a
    name of the current roster, and no effect is pending; and when a
    handler leaves a selection that the roster does not offer, the cycle
    ends with the selection "All". *)
Theorem selection_always_valid (projects : list Project)
    (s : App.State Project) :
  reachable normalize projects s ->
  selectionValid s
  /\ App.effects s = s
  /\ (forall e, ~ selectionValid (handle normalize e s) ->
                App.selectedInvestor (step normalize e s) = "All").
Proof.
  intro R.
  assert (Q : selectionValid s /\ App.effects s = s).
  { destruct R; split;
      first [apply settle_valid | apply effects_settle]. }
  destruct Q as [V F]. split; [exact V | split; [exact F |]].
  intros e NV. unfold step, App.settle.
  assert (A : App.selectedInvestor (App.effects (handle normalize e s)) = "All").
  { unfold App.effects, App.reconcileEffect, selectionValid in *.
    destruct (String.eqb_spec (App.selectedInvestor (handle normalize e s)) "All")
      as [E|E]; [tauto |].
    destruct (eligible (App.roster (handle normalize e s))
                (App.selectedInvestor (handle normalize e s))) eqn:G; simpl.
    - exfalso. apply NV. right. now apply eligible_In.
    - reflexivity. }
  set (s1 := App.effects (handle normalize e s)) in *.
  unfold App.effects.
  rewrite reconcileEffect_fixed by (left; exact A).
  exact A.
Qed.

End Reconciliation.

(* ===================================================================== *)
(** ** File upload *)
(* ===================================================================== *)

Section UploadSpec.

Context {PF : Platform}.

Lemma UploadFailure_processing (file : File.t) (papaLoads : bool)
    (msg : string) :
  UploadFailure file papaLoads msg ->
  File.text file = None /\ msg = "Failed to read the file."
  \/ exists content e,
       File.text file = Some content
       /\ App.processFile transformItemToProject file papaLoads content = inl e
       /\ msg = App.errorText e.
Proof.
  intros [N | content T J C | content v T J Pv NA | content e rest T J C L E
          | content e T Pr].
  - left. auto.
  - right. exists content. eexists. split; [exact T | split].
    + unfold App.processFile. fold (jsonFile file). fold (csvFile file).
      rewrite J, C. reflexivity.
    + reflexivity.
  - right. exists content. eexists. split; [exact T | split].
    + unfold App.processFile. fold (jsonFile file). rewrite J, Pv. simpl.
      destruct v; try reflexivity. exfalso. eapply NA. reflexivity.
    + reflexivity.
  - subst papaLoads. right. exists content. eexists.
    split; [exact T | split].
    + unfold App.processFile. fold (jsonFile file). fold (csvFile file).
      rewrite J, C, E. reflexivity.
    + reflexivity.
  - right. exists content, e. auto.
Qed.

(** C8. When an upload fails, nothing but the error text changes: the
    record set (and every other cell) is as before, and the message of the
    failure is set for display. *)
Theorem failed_upload_keeps_records (file : File.t) (papaLoads : bool)
    (msg : string) (s : App.State RawProject) :
  UploadFailure file papaLoads msg ->
  App.handleFileUpload transformItemToProject file papaLoads s
  = App.setUploadError (Some msg) s
  /\ App.allProjects
       (App.handleFileUpload transformItemToProject file papaLoads s)
     = App.allProjects s
  /\ App.uploadError
       (App.handleFileUpload transformItemToProject file papaLoads s)
     = Some msg.
Proof.
  intro F.
  assert (E : App.handleFileUpload transformItemToProject file papaLoads s
              = App.setUploadError (Some msg) s).
  { unfold App.handleFileUpload.
    destruct (UploadFailure_processing _ _ _ F)
      as [[T ->] | [content [e [T [Pr ->]]]]]; rewrite T.
    - reflexivity.
    - rewrite Pr. reflexivity. }
  rewrite E. repeat split.
Qed.

(** C10. A successful upload replaces the record set, clears the error,
    and puts every filter back to its default; the label switch and the
    filtered list (recomputed by the next effect) are not touched. *)
Theorem successful_upload_resets_filters (file : File.t) (papaLoads : bool)
    (content : string) (newProjects : list RawProject)
    (s : App.State RawProject) :
  File.text file = Some content ->
  App.processFile transformItemToProject file papaLoads content
  = inr newProjects ->
  App.handleFileUpload transformItemToProject file papaLoads s
  = App.mkState newProjects (App.filteredProjects s) None "All" "All" "All"
      (App.showLabels s) 0 "" "".
Proof.
  intros T Pr. unfold App.handleFileUpload. rewrite T, Pr. reflexivity.
Qed.

End UploadSpec.

(* ===================================================================== *)
(** ** The normalizer on items that are not [null] *)
(* ===================================================================== *)

Section NormalizerSpec.

Context {PF : Platform}.

Lemma get_ok (item : value) (k : string) :
  isNullish item = false -> get item k = ret (prop item k).
Proof. unfold get. now intros ->. Qed.

Lemma transformItemToProject_eq (item : value) :
  isNullish item = false ->
  transformItemToProject item
  = (lat <- parseFloat (latOperand item) ;;
     lng <- parseFloat (lngOperand item) ;;
     ret (normalizedRecord item lat lng)).
Proof.
  intro H. unfold transformItemToProject, field, coordinateOperand.
  rewrite !(get_ok item _ H). reflexivity.
Qed.

Lemma transformItemToProject_nullish (item : value) :
  isNullish item = true ->
  transformItemToProject item = throw (Err (cannotRead item "attributes")).
Proof.
  intro H. unfold transformItemToProject, get. rewrite H. reflexivity.
Qed.

(** The normalizer throws only on a [null] or [undefined] item, or when a
    coordinate cannot be converted to a string. *)
Lemma transformItemToProject_throws (item : value) (e : exn) :
  transformItemToProject item = inl e ->
  isNullish item = true
  \/ ToString (latOperand item) = inl e
  \/ ToString (lngOperand item) = inl e.
Proof.
  intro T. destruct (isNullish item) eqn:N; [now left | right].
  rewrite (transformItemToProject_eq item N) in T. unfold parseFloat in T.
  destruct (ToString (latOperand item)) as [e1|s1]; simpl in T.
  - left. now inversion T.
  - destruct (ToString (lngOperand item)) as [e2|s2]; simpl in T.
    + right. now inversion T.
    + discriminate T.
Qed.




Lemma or_falsy_left (a b : value) : truthy a = false -> a ||| b = b.
Proof. unfold JS.or. now intros ->. Qed.






End NormalizerSpec.


(* ===================================================================== *)
(** ** Zero coordinates *)
(* ===================================================================== *)

Lemma lookup_remove_same {A : Type} (k : string) (l : list (string * A)) :
  lookup k (remove k l) = None.
Proof.
  induction l as [|[k0 v0] l IH]; simpl; [reflexivity |].
  destruct (String.eqb_spec k0 k) as [E|E]; [exact IH |].
  simpl. destruct (String.eqb_spec k0 k); [contradiction | exact IH].
Qed.

Lemma lookup_remove_other {A : Type} (k k' : string) (l : list (string * A)) :
  k <> k' -> lookup k' (remove k l) = lookup k' l.
Proof.
  intro N. induction l as [|[k0 v0] l IH]; simpl; [reflexivity |].
  destruct (String.eqb_spec k0 k) as [E|E].
  - subst k0. destruct (String.eqb_spec k k'); [contradiction | exact IH].
  - simpl. destruct (String.eqb_spec k0 k'); [reflexivity | exact IH].
Qed.

Section ZeroCoordinates.

Context {PF : Platform}.

Lemma prop_remove_same (props : list (string * value)) (k : string) :
  prop (Obj (remove k props)) k = Undefined.
Proof. unfold prop. now rewrite lookup_remove_same. Qed.

Lemma prop_remove_other (props : list (string * value)) (k k' : string) :
  k <> k' -> prop (Obj (remove k props)) k' = prop (Obj props) k'.
Proof. intro N. unfold prop. now rewrite lookup_remove_other. Qed.

Lemma falsy_like_absent (v b c : value) :
  truthy v = false -> v ||| b ||| c = Undefined ||| b ||| c.
Proof. intro F. now rewrite (or_falsy_left v b F). Qed.

Lemma falsy_key_like_removed (props : list (string * value))
    (k : string) (v : value) :
  k = "latitude" \/ k = "longitude" ->
  lookup k props = Some v -> truthy v = false ->
  transformItemToProject (Obj props)
  = transformItemToProject (Obj (remove k props)).
Proof.
  intros K L F.
  rewrite !transformItemToProject_eq by reflexivity.
  assert (P : prop (Obj props) k = v) by (unfold prop; now rewrite L).
  destruct K; subst k.
  - assert (Lat : latOperand (Obj (remove "latitude" props))
                  = latOperand (Obj props)).
    { unfold latOperand. rewrite prop_remove_same.
      rewrite !prop_remove_other by discriminate.
      rewrite P. symmetry. now apply falsy_like_absent. }
    assert (Lng : lngOperand (Obj (remove "latitude" props))
                  = lngOperand (Obj props)).
    { unfold lngOperand. now rewrite !prop_remove_other by discriminate. }
    rewrite Lat, Lng. unfold normalizedRecord, textField.
    now rewrite !prop_remove_other by discriminate.
  - assert (Lat : latOperand (Obj (remove "longitude" props))
                  = latOperand (Obj props)).
    { unfold latOperand. now rewrite !prop_remove_other by discriminate. }
    assert (Lng : lngOperand (Obj (remove "longitude" props))
                  = lngOperand (Obj props)).
    { unfold lngOperand. rewrite prop_remove_same.
      rewrite !prop_remove_other by discriminate.
      rewrite P. symmetry. now apply falsy_like_absent. }
    rewrite Lat, Lng. unfold normalizedRecord, textField.
    now rewrite !prop_remove_other by discriminate.
Qed.

(** C9, as the code has it. A falsy value under the canonical coordinate
    key (the number 0, an empty text, [null], ...) is normalized exactly as
    if the key were absent. A non-empty text under that key, "0" included,
    is the one that is parsed. A record with a zero latitude or longitude
    gets no marker. *)
Theorem zero_coordinate_handling :
  (forall props k v,
      k = "latitude" \/ k = "longitude" ->
      lookup k props = Some v -> truthy v = false ->
      transformItemToProject (Obj props)
      = transformItemToProject (Obj (remove k props)))
  /\ (forall props s (p : RawProject),
        s <> "" ->
        transformItemToProject (Obj props) = inr p ->
        (lookup "latitude" props = Some (Str s) ->
         latitude p = coordinate (parseFloat_string s))
        /\ (lookup "longitude" props = Some (Str s) ->
            longitude p = coordinate (parseFloat_string s)))
  /\ (forall (p : RawProject) x,
        latitude p = Some x \/ longitude p = Some x ->
        PrimFloat.is_zero x = true ->
        ProjectMarker p = None).
Proof.
  split; [exact falsy_key_like_removed | split].
  - intros props s p N T.
    rewrite transformItemToProject_eq in T by reflexivity.
    assert (Tr : truthy (Str s) = true)
      by (simpl; now destruct (String.eqb_spec s "")).
    split; intro L.
    + assert (O : latOperand (Obj props) = Str s).
      { unfold latOperand, prop. rewrite L. unfold JS.or at 2. rewrite Tr.
        unfold JS.or. now rewrite Tr. }
      rewrite O in T. simpl in T.
      destruct (parseFloat (lngOperand (Obj props))); simpl in T;
        [discriminate T |]. now inversion T.
    + assert (O : lngOperand (Obj props) = Str s).
      { unfold lngOperand, prop. rewrite L. unfold JS.or at 2. rewrite Tr.
        unfold JS.or. now rewrite Tr. }
      rewrite O in T.
      destruct (parseFloat (latOperand (Obj props))); simpl in T;
        [discriminate T |]. now inversion T.
  - intros p x [L|L] Z; unfold ProjectMarker; rewrite L; simpl; rewrite Z.
    + reflexivity.
    + simpl. now rewrite orb_true_r.
Qed.

End ZeroCoordinates.

(** C9 as stated fails for the text "0": it is kept and parsed, and the
    alias key is not consulted. Without the canonical key the alias's 21
    would be the latitude. *)
Lemma text_zero_is_kept :
  match transformItemToProject (PF := Example.platform)
          (Obj [("latitude", Str "0"); ("lat", Str "21");
                ("longitude", Str "105")]) with
  | inr p => latitude p
  | inl _ => None
  end = Some 0%float
  /\ match transformItemToProject (PF := Example.platform)
             (Obj (remove "latitude"
                     [("latitude", Str "0"); ("lat", Str "21");
                      ("longitude", Str "105")])) with
     | inr p => latitude p
     | inl _ => None
     end = Some 21%float.
Proof. split; vm_compute; reflexivity. Qed.

(* ===================================================================== *)
(** ** Chart coordinates *)
(* ===================================================================== *)

Module ChartSpec.

Import PriceChart.

Local Open Scope float_scope.

Lemma Math_min_zeros (l : list float) :
  l <> [] -> Forall (fun v => v = 0) l -> Math_min l = 0.
Proof.
  unfold Math_min. intros N F.
  assert (Z : forall l', Forall (fun v => v = 0) l' -> fold_left min2 l' 0 = 0).
  { induction 1 as [|v l' -> _ IH]; simpl; [reflexivity | exact IH]. }
  destruct F as [|v l' -> F]; [contradiction | simpl].
  now apply Z.
Qed.

Lemma Math_max_zeros (l : list float) :
  l <> [] -> Forall (fun v => v = 0) l -> Math_max l = 0.
Proof.
  unfold Math_max. intros N F.
  assert (Z : forall l', Forall (fun v => v = 0) l' -> fold_left max2 l' 0 = 0).
  { induction 1 as [|v l' -> _ IH]; simpl; [reflexivity | exact IH]. }
  destruct F as [|v l' -> F]; [contradiction | simpl].
  now apply Z.
Qed.

Lemma flatZero_range (data : PriceHistory) :
  flatZero data -> minValue data = 0 /\ range data = 0.
Proof.
  intros [N F]. unfold range, maxValue, minValue.
  rewrite (Math_min_zeros _ N F), (Math_max_zeros _ N F).
  split; reflexivity.
Qed.

(** C5, as the code has it. The X-mapping is the stated formula at every
    index, with no guard; for two labels it puts the ends on the two
    paddings; for a single label the quotient is 0/0 and the point's x is
    NaN, in a path that is a lone move-to. *)
Theorem getX_formula_unguarded (data : PriceHistory) :
  (forall index,
      getX data index
      = padding
        + index / (number (List.length (labels data)) - 1)
          * (width - 2 * padding))
  /\ (List.length (labels data) = 2%nat ->
      getX data (number 0) = padding
      /\ getX data (number 1) = width - padding)
  /\ (List.length (labels data) = 1%nat ->
      getX data (number 0) = nan
      /\ forall v, createPath data [v] = [(M, nan, getY data v)]).
Proof.
  split; [intro index; reflexivity | split]; intro E.
  - unfold getX. rewrite E. split; reflexivity.
  - assert (X : getX data (number 0) = nan)
      by (unfold getX; rewrite E; reflexivity).
    split; [exact X |]. intro v. unfold createPath. simpl. now rewrite X.
Qed.

(** A number that compares equal to zero is +0 or -0. *)
Lemma eqb_zero_sign (r : float) :
  (r =? 0) = true -> exists s, Prim2SF r = S754_zero s.
Proof.
  rewrite FloatAxioms.eqb_spec.
  change (Prim2SF 0) with (S754_zero false).
  destruct (Prim2SF r) as [s| [|] | |[|] m e]; try discriminate; eauto.
Qed.

(** Division by a zero gives NaN or an infinity, whatever is divided. *)
Lemma div_by_zero (x r : float) :
  (r =? 0) = true ->
  Prim2SF (x / r) = S754_nan \/ exists s, Prim2SF (x / r) = S754_infinity s.
Proof.
  intro Z. destruct (eqb_zero_sign r Z) as [s E].
  rewrite FloatAxioms.div_spec, E. unfold SF64div, SFdiv.
  destruct (Prim2SF x); [left | right | left | right]; eauto.
Qed.

(** Scaling by the chart height and subtracting from the base line keep
    NaN and the infinities what they are. *)
Lemma scale_not_finite (q : float) :
  Prim2SF q = S754_nan \/ (exists s, Prim2SF q = S754_infinity s) ->
  Prim2SF (q * chartHeight) = S754_nan
  \/ exists s, Prim2SF (q * chartHeight) = S754_infinity s.
Proof.
  rewrite FloatAxioms.mul_spec.
  destruct (Prim2SF chartHeight) as [s| s | |s m e] eqn:E;
    try (vm_compute in E; discriminate E).
  intros [-> | [t ->]]; [left | right]; simpl; eauto.
Qed.

Lemma baseline_not_finite (q : float) :
  Prim2SF q = S754_nan \/ (exists s, Prim2SF q = S754_infinity s) ->
  Prim2SF (height - padding - q) = S754_nan
  \/ exists s, Prim2SF (height - padding - q) = S754_infinity s.
Proof.
  rewrite FloatAxioms.sub_spec.
  destruct (Prim2SF (height - padding)) as [s| s | |s m e] eqn:E;
    try (vm_compute in E; discriminate E).
  intros [-> | [t ->]]; [left | right]; simpl; eauto.
Qed.

Lemma not_finite_offCanvas (y : float) :
  Prim2SF y = S754_nan \/ (exists s, Prim2SF y = S754_infinity s) ->
  offCanvas y /\ (y =? height / 2) = false.
Proof.
  unfold offCanvas, PrimFloat.is_nan, PrimFloat.is_infinity.
  rewrite !FloatAxioms.eqb_spec, FloatAxioms.abs_spec.
  destruct (Prim2SF (height / 2)) as [s| s | |s m e] eqn:E;
    try (vm_compute in E; discriminate E).
  intros [-> | [t ->]]; split; auto.
  destruct t; reflexivity.
Qed.

Lemma zero_range_offCanvas (data : PriceHistory) (v : float) :
  (range data =? 0) = true ->
  offCanvas (getY data v) /\ (getY data v =? height / 2) = false.
Proof.
  intro Z. apply not_finite_offCanvas. unfold getY.
  apply baseline_not_finite, scale_not_finite, div_by_zero, Z.
Qed.

(** C6, as the code has it. The Y-mapping is the stated formula over the
    padded range of the three series, with no guard. Whenever the range is
    zero (+0 or -0), the division is a division by zero: every value's y is
    NaN or an infinity, and never the vertical center. For a series that
    is zero throughout the range is zero, the quotient is 0/0 and the y of
    its points is NaN. *)
Theorem getY_formula_unguarded (data : PriceHistory) :
  (forall v,
      getY data v
      = height - padding
        - (v - minValue data) / range data * (height - 2 * padding))
  /\ minValue data = Math_min (min data ++ max data ++ avg data) * 0.9
  /\ maxValue data = Math_max (min data ++ max data ++ avg data) * 1.1
  /\ range data = maxValue data - minValue data
  /\ ((range data =? 0) = true ->
      forall v,
        offCanvas (getY data v) /\ (getY data v =? height / 2) = false)
  /\ (flatZero data -> range data = 0 /\ getY data 0 = nan).
Proof.
  split; [intro v; reflexivity |].
  split; [reflexivity |]. split; [reflexivity |]. split; [reflexivity |].
  split.
  - intros Z v. now apply zero_range_offCanvas.
  - intro H. destruct (flatZero_range data H) as [Mn Rg].
    split; [exact Rg |]. unfold getY. rewrite Mn, Rg. reflexivity.
Qed.

(** The series of the specification's example. *)
Example chart_example :
  let data := mkPriceHistory ["2020"; "2021"] [15; 18] [10; 12] [20; 22] in
  minValue data = 9
  /\ maxValue data = 24.200000000000003
  /\ getX data (number 0) = padding
  /\ getX data (number 1) = width - padding.
Proof. repeat split. Qed.

(** A flat series away from zero has a range that is not zero, and sits
    at the vertical center without any guard. *)
Example flat_series_range :
  let data := mkPriceHistory ["2020"; "2021"] [10; 10] [10; 10] [10; 10] in
  range data = 2
  /\ getY data 10 = height / 2.
Proof. split; reflexivity. Qed.

(** A series below zero whose padded bounds meet: -11 * 0.9 and -9 * 1.1
    are the same number, the range is zero, and the three values land on
    the infinities. *)
Example negative_series_zero_range :
  let data := mkPriceHistory ["2020"] [-10] [-11] [-9] in
  minValue data = maxValue data
  /\ range data = 0
  /\ getY data (-11) = infinity
  /\ getY data (-10) = infinity
  /\ getY data (-9) = neg_infinity.
Proof. repeat split. Qed.

(** A series of negative zeros: the range is +0 and the points map to
    NaN. *)
Example negative_zero_series :
  let data := mkPriceHistory ["2020"] [-0] [-0] [-0] in
  (range data =? 0) = true
  /\ PrimFloat.is_nan (getY data (-0)) = true.
Proof. split; reflexivity. Qed.

(** C5 as stated fails: with one label the point is not at the left edge. *)
Lemma single_point_not_at_left_edge :
  getX (mkPriceHistory ["2020"] [15] [10] [20]) (number 0) = nan
  /\ (getX (mkPriceHistory ["2020"] [15] [10] [20]) (number 0) =? padding)
     = false.
Proof. split; reflexivity. Qed.

(** C6 as stated fails: with a zero range the points are not at the
    vertical center. *)
Lemma zero_range_not_centered :
  range (mkPriceHistory ["2020"; "2021"] [0; 0] [0; 0] [0; 0]) = 0
  /\ getY (mkPriceHistory ["2020"; "2021"] [0; 0] [0; 0] [0; 0]) 0 = nan
  /\ (getY (mkPriceHistory ["2020"; "2021"] [0; 0] [0; 0] [0; 0]) 0
      =? height / 2) = false.
Proof. repeat split. Qed.

End ChartSpec.

(* ===================================================================== *)
(** ** District list and dropdown options *)
(* ===================================================================== *)

Lemma NoDup_map_filter {A B : Type} (f : A -> B) (g : A -> bool)
    (l : list A) :
  NoDup (map f l) -> NoDup (map f (filter g l)).
Proof.
  induction l as [|x l IH]; simpl; intro ND; [constructor |].
  inversion ND as [|? ? NI ND']; subst.
  destruct (g x); simpl; [| now apply IH].
  constructor; [| now apply IH].
  intro H. apply NI. apply in_map_iff in H. destruct H as [y [E Hy]].
  apply filter_In in Hy. apply in_map_iff. exists y. tauto.
Qed.

Lemma filter_filter {A : Type} (f g : A -> bool) (l : list A) :
  filter f (filter g l) = filter (fun x => g x && f x) l.
Proof.
  induction l as [|x l IH]; simpl; [reflexivity |].
  destruct (g x); simpl; [destruct (f x) |]; now rewrite IH.
Qed.

Lemma filter_eqb_length {A : Type} (h : A -> string) (n : string)
    (l : list A) :
  List.length (filter (fun x => h x =? n) l)
  = count_occ string_dec (map h l) n.
Proof.
  induction l as [|x l IH]; simpl; [reflexivity |].
  destruct (String.eqb_spec (h x) n) as [E|E];
    destruct (string_dec (h x) n); try contradiction; simpl; now rewrite IH.
Qed.

Lemma availableDistricts_members (selectedProvince : string)
    (allProjects : list Project) (d : string) :
  In d (availableDistricts selectedProvince allProjects)
  <-> selectedProvince <> "All" /\ d <> ""
      /\ exists p, In p allProjects
                   /\ province p = selectedProvince /\ district p = d.
Proof.
  unfold availableDistricts.
  destruct (String.eqb_spec selectedProvince "All") as [E|E].
  - simpl. tauto.
  - rewrite sortBy_In. rewrite (proj2 (newSet_spec _)).
    rewrite filter_In, in_map_iff, negb_true_iff, String.eqb_neq.
    split.
    + intros [[p [D H]] N]. apply filter_In in H. destruct H as [H Q].
      apply String.eqb_eq in Q. split; [exact E | split; [exact N |]].
      exists p. auto.
    + intros [_ [N [p [H [Q D]]]]]. split; [| exact N].
      exists p. split; [exact D |]. apply filter_In. split; [exact H |].
      now apply String.eqb_eq.
Qed.

(** X1. The district list is empty while the province selection is "All";
    for a province it holds, once each and in ascending code-unit order,
    the non-empty districts of the records of that province. *)
Theorem availableDistricts_scoped (selectedProvince : string)
    (allProjects : list Project) :
  codeUnitAscending (availableDistricts selectedProvince allProjects)
  /\ NoDup (availableDistricts selectedProvince allProjects)
  /\ (forall d,
        In d (availableDistricts selectedProvince allProjects)
        <-> selectedProvince <> "All" /\ d <> ""
            /\ exists p, In p allProjects
                         /\ province p = selectedProvince /\ district p = d).
Proof.
  split; [| split; [| apply availableDistricts_members]];
    unfold availableDistricts;
    destruct (String.eqb_spec selectedProvince "All") as [E|E];
    try constructor.
  - apply sortBy_leb_ascending.
  - eapply Permutation_NoDup; [apply Permutation_sym, sortBy_perm |].
    apply newSet_spec.
Qed.

Section Dropdowns.

Context {PF : Platform}.

Lemma roster_entry_count (allProjects : list Project)
    (selectedProvince selectedDistrict : string) (T : nat) (i : Investor.t) :
  In i (investorsData allProjects selectedProvince selectedDistrict T) ->
  inherited (Investor.name i) = false
  /\ Investor.count i
     = Investor.Number
         (scopedCount allProjects selectedProvince selectedDistrict
            (Investor.name i))
  /\ 1 <= scopedCount allProjects selectedProvince selectedDistrict
            (Investor.name i)
  /\ T <= scopedCount allProjects selectedProvince selectedDistrict
            (Investor.name i).
Proof.
  destruct i as [n cnt]. intro H. simpl.
  destruct (inherited n) eqn:Hn.
  - exfalso. exact (roster_inherited_name _ _ _ _ _ _ Hn H).
  - apply (roster_ordinary_name _ _ _ _ _ _ Hn) in H. tauto.
Qed.

(** X2. The roster lists no name twice; every entry carries a number, the
    number of records in scope with that name, which is at least 1 and at
    least the threshold; and no entry bears a name of [Object.prototype]. *)
Theorem roster_entries_counted (allProjects : list Project)
    (selectedProvince selectedDistrict : string) (T : nat) :
  NoDup (map Investor.name
           (investorsData allProjects selectedProvince selectedDistrict T))
  /\ (forall i,
        In i (investorsData allProjects selectedProvince selectedDistrict T) ->
        inherited (Investor.name i) = false
        /\ Investor.count i
           = Investor.Number
               (scopedCount allProjects selectedProvince selectedDistrict
                  (Investor.name i))
        /\ 1 <= scopedCount allProjects selectedProvince selectedDistrict
                  (Investor.name i)
        /\ T <= scopedCount allProjects selectedProvince selectedDistrict
                  (Investor.name i)).
Proof.
  split.
  - unfold investorsData.
    set (counts := investorCounts _).
    destruct (investorCounts_tallies
                (relevantProjects allProjects selectedProvince selectedDistrict))
      as [ND _]. fold counts in ND.
    eapply Permutation_NoDup;
      [apply Permutation_sym, Permutation_map, sortBy_perm |].
    apply NoDup_map_filter. rewrite map_map. simpl. exact ND.
  - intros i H. now apply roster_entry_count.
Qed.

(** X3. If [localeCompare] never puts two names each after the other, the
    roster is in ascending [localeCompare] order, entry after entry. *)
Theorem roster_sorted_by_name (allProjects : list Project)
    (selectedProvince selectedDistrict : string) (T : nat) :
  (forall a b, localeCompare a b = Gt -> localeCompare b a <> Gt) ->
  Sorted
    (fun i j => localeCompare (Investor.name i) (Investor.name j) <> Gt)
    (investorsData allProjects selectedProvince selectedDistrict T).
Proof.
  intro Total. unfold investorsData.
  assert (S : forall l, Sorted (fun a b => byName a b = true) (sortBy byName l)).
  { intro l. apply sortBy_sorted. intros a b. unfold byName.
    destruct (localeCompare (Investor.name a) (Investor.name b)) eqn:E1; auto.
    destruct (localeCompare (Investor.name b) (Investor.name a)) eqn:E2; auto.
    exfalso. exact (Total _ _ E1 E2). }
  eapply Sorted_ind with (P := Sorted _); [constructor | | apply S].
  intros a l _ IH H. constructor; [exact IH |].
  destruct H as [|b l' H]; constructor.
  unfold byName in H. intro G. rewrite G in H. discriminate H.
Qed.

(** X4. Raising the threshold only removes entries: the roster for the
    higher threshold is part of the roster for the lower one, and no
    longer. *)
Theorem roster_shrinks_with_threshold (allProjects : list Project)
    (selectedProvince selectedDistrict : string) (T T' : nat) :
  T <= T' ->
  incl (investorsData allProjects selectedProvince selectedDistrict T')
       (investorsData allProjects selectedProvince selectedDistrict T)
  /\ List.length (investorsData allProjects selectedProvince selectedDistrict T')
     <= List.length (investorsData allProjects selectedProvince selectedDistrict T).
Proof.
  intro H. split; [| now apply roster_threshold_monotone].
  intros i Hi. apply investorsData_In in Hi. apply investorsData_In.
  destruct Hi as [L C]. split; [exact L |].
  destruct (Investor.count i); simpl in *; [| discriminate C].
  apply Nat.leb_le in C. apply Nat.leb_le. lia.
Qed.

(** X5. The count shown beside an investor in the dropdown is the number
    of records the map lists once that investor is selected and both
    search boxes are empty -- provided the investor is not called "All". *)
Theorem roster_count_is_result_count (allProjects : list Project)
    (selectedProvince selectedDistrict : string) (T : nat)
    (n : string) (k : nat) :
  In (Investor.mk n (Investor.Number k))
     (investorsData allProjects selectedProvince selectedDistrict T) ->
  n <> "All" ->
  List.length
    (filterProjects allProjects selectedProvince selectedDistrict n T "" "")
  = k.
Proof.
  intros H N.
  destruct (roster_entry_count _ _ _ _ _ H) as [_ [E _]].
  simpl in E. inversion E as [K].
  unfold scopedCount. rewrite <- filter_eqb_length.
  unfold relevantProjects. rewrite filter_filter.
  unfold filterProjects. f_equal. apply filter_ext. intro p.
  unfold projectMatches.
  destruct (String.eqb_spec n "All") as [?|_]; [contradiction |].
  simpl. now rewrite !andb_true_r.
Qed.

(** X6. Every province the dropdown offers matches at least one record
    when nothing else is filtered; so does every district offered for
    it. *)
Theorem dropdown_options_match_records (allProjects : list Project)
    (T : nat) :
  (forall P, In P (provinces allProjects) ->
             exists p, In p (filterProjects allProjects P "All" "All" T "" "")
                       /\ province p = P)
  /\ (forall P D, In D (availableDistricts P allProjects) ->
                  exists p, In p (filterProjects allProjects P D "All" T "" "")
                            /\ province p = P /\ district p = D).
Proof.
  assert (M : forall P D p,
             province p = P -> (D = "All" \/ district p = D) ->
             projectMatches P D "All" T "" "" p = true).
  { intros P D p EP ED. unfold projectMatches. simpl.
    rewrite EP, String.eqb_refl, orb_true_r. simpl.
    assert (X : (D =? "All") || (district p =? D) = true).
    { destruct ED as [->|<-]; [reflexivity |].
      rewrite String.eqb_refl. apply orb_true_r. }
    rewrite X. now destruct (0 <? T)%nat. }
  split.
  - intros P H. apply provinces_members in H.
    destruct H as [_ [p [Hp E]]]. exists p. split; [| exact E].
    apply filter_In. split; [exact Hp |]. apply M; auto.
  - intros P D H. apply availableDistricts_members in H.
    destruct H as [_ [_ [p [Hp [EP ED]]]]]. exists p.
    split; [| auto]. apply filter_In. split; [exact Hp |]. apply M; auto.
Qed.

End Dropdowns.

(* ===================================================================== *)
(** ** Imports and the displayed list *)
(* ===================================================================== *)

Lemma mapM_Forall2 {A B : Type} (f : A -> result B) (l : list A)
    (ys : list B) :
  mapM f l = inr ys <-> Forall2 (fun x y => f x = inr y) l ys.
Proof.
  revert ys. induction l as [|x l IH]; intro ys; simpl.
  - split; intro H; inversion H; [constructor | reflexivity].
  - split.
    + destruct (f x) as [e|y] eqn:Fx; simpl; [discriminate |].
      destruct (mapM f l) as [e|ys'] eqn:M; simpl; [discriminate |].
      intro H. inversion H; subst.
      constructor; [exact Fx | now apply IH].
    + intro H. inversion H as [|? y ? ys' Hy Hl]; subst.
      apply IH in Hl. unfold JS.bind. now rewrite Hy, Hl.
Qed.


Section Imports.

Context {PF : Platform} {P : Type}.

Variable normalize : value -> result P.


(** X7. A file that is processed without error yields one record per
    item, in the order of the items: per element of the JSON array, or per
    row the CSV parser returned (which it is asked for only when the file
    is not taken for JSON, the parser is available and it reports no
    error). *)
Theorem import_keeps_every_item (file : File.t) (papaLoads : bool)
    (content : string) (newProjects : list P) :
  App.processFile normalize file papaLoads content = inr newProjects ->
  exists items,
    Forall2 (fun item p => normalize item = inr p) items newProjects
    /\ (jsonFile file = true /\ JSON_parse content = inr (Arr items)
        \/ jsonFile file = false /\ csvFile file = true /\ papaLoads = true
           /\ errors (Papa_parse content) = []
           /\ items = data (Papa_parse content)).
Proof.
  unfold App.processFile. fold (jsonFile file). fold (csvFile file).
  destruct (jsonFile file).
  - destruct (JSON_parse content) as [e|v]; simpl; [discriminate |].
    destruct v; try discriminate. intro M.
    exists xs. split; [now apply mapM_Forall2 | left; auto].
  - destruct (csvFile file); [| discriminate].
    destruct papaLoads; simpl; [| discriminate].
    destruct (errors (Papa_parse content)) eqn:E; [| discriminate].
    intro M. exists (data (Papa_parse content)).
    split; [now apply mapM_Forall2 | right; auto].
Qed.

(** X8. The startup load changes nothing but the record set, and changes
    that only when the response is ok, its content type mentions
    [application/json], its body is an array and every element
    normalizes; in every other case, a rejected fetch included, the state
    is exactly as before (no error text, no filter touched). *)
Theorem startup_load_silent (fetched : result Response.t) (s : App.State P) :
  loadExternalData normalize fetched s = s
  \/ exists response contentType items mappedProjects,
       fetched = inr response
       /\ Response.ok response = true
       /\ Response.contentType response = Some contentType
       /\ includes contentType "application/json" = true
       /\ Response.json response = inr (Arr items)
       /\ Forall2 (fun item p => normalize item = inr p) items mappedProjects
       /\ loadExternalData normalize fetched s
          = App.setAllProjects mappedProjects s.
Proof.
  unfold loadExternalData.
  destruct fetched as [e|response]; [now left |].
  destruct (Response.ok response) eqn:Ok; [| now left].
  destruct (Response.contentType response) as [ct|] eqn:Ct; [| now left].
  destruct (negb (ct =? "") && includes ct "application/json") eqn:J;
    [| now left].
  apply andb_true_iff in J. destruct J as [_ J].
  destruct (Response.json response) as [e|v] eqn:Js; [now left |].
  destruct v; try now left.
  destruct (mapM normalize xs) as [e|ps] eqn:M; [now left |].
  right. exists response, ct, xs, ps.
  repeat split; try assumption; try reflexivity.
  now apply mapM_Forall2.
Qed.

End Imports.

Section UploadOutcome.

Context {PF : Platform}.


End UploadOutcome.

Section DisplayedList.

Context {PF : Platform}.

Variable normalize : value -> result Project.

Lemma reachable_quiet (projects : list Project) (s : App.State Project) :
  reachable normalize projects s -> App.effects s = s.
Proof. intro R. destruct R; apply effects_settle. Qed.



(** X10. When an update cycle is over, the list handed to the map and to
    the result counter is the record set filtered by the current
    selections; in particular it holds only records of the set. *)
Theorem displayed_list_is_current (projects : list Project)
    (s : App.State Project) :
  reachable normalize projects s ->
  App.filteredProjects s = App.filtered s
  /\ incl (App.filteredProjects s) (App.allProjects s).
Proof.
  intro R. pose proof (reachable_quiet projects s R) as Q.
  assert (E : App.filteredProjects s = App.filtered s).
  { rewrite <- Q at 1. reflexivity. }
  split; [exact E |]. rewrite E. intros p H.
  unfold App.filtered, filterProjects in H. now apply filter_In in H.
Qed.

End DisplayedList.

Section UploadDisplay.

Context {PF : Platform}.


End UploadDisplay.

(* ===================================================================== *)
(** ** Order of numbers *)
(* ===================================================================== *)

Section SpecOrder.

Lemma compare_cont_Eq (a b : positive) :
  Pos.compare_cont Eq a b = Pos.compare a b.
Proof. reflexivity. Qed.

Ltac order_cases :=
  repeat match goal with
    | |- context [Z.compare ?a ?b] => destruct (Z.compare_spec a b); subst
    | |- context [Pos.compare_cont Eq ?a ?b] =>
        change (Pos.compare_cont Eq a b) with (Pos.compare a b);
        destruct (Pos.compare_spec a b); subst
    end;
  simpl; intros; try reflexivity; try congruence; try lia.

Lemma SFleb_trans (a b c : spec_float) :
  SFleb a b = true -> SFleb b c = true -> SFleb a c = true.
Proof.
  unfold SFleb, SFcompare.
  destruct a as [sa|sa| |sa ma ea], b as [sb|sb| |sb mb eb],
    c as [sc|sc| |sc mc ec];
    try destruct sa; try destruct sb; try destruct sc; simpl;
    try discriminate; try reflexivity; auto;
    order_cases.
Qed.

Lemma SFleb_refl (a : spec_float) : a <> S754_nan -> SFleb a a = true.
Proof.
  unfold SFleb, SFcompare.
  destruct a as [sa|sa| |sa ma ea]; try destruct sa; simpl;
    try reflexivity; try congruence;
    rewrite ?compare_cont_Eq, Z.compare_refl, Pos.compare_refl; reflexivity.
Qed.

Lemma SFltb_leb (a b : spec_float) : SFltb a b = true -> SFleb a b = true.
Proof.
  unfold SFltb, SFleb. destruct (SFcompare a b) as [[| |]|]; auto.
Qed.

Lemma SFleb_total (a b : spec_float) :
  a <> S754_nan -> b <> S754_nan -> SFltb b a = false -> SFleb a b = true.
Proof.
  unfold SFleb, SFltb, SFcompare.
  destruct a as [sa|sa| |sa ma ea], b as [sb|sb| |sb mb eb];
    try destruct sa; try destruct sb; simpl;
    try discriminate; try reflexivity; try congruence; auto;
    intros _ _; order_cases.
Qed.

Lemma SFleb_not_nan (a b : spec_float) :
  SFleb a b = true -> a <> S754_nan /\ b <> S754_nan.
Proof.
  unfold SFleb, SFcompare.
  destruct a, b; simpl; try discriminate; intros _; split; discriminate.
Qed.

End SpecOrder.

Module NumberOrder.

Local Open Scope float_scope.

Lemma Prim2SF_nan (x : float) :
  Prim2SF x = S754_nan <-> PrimFloat.is_nan x = true.
Proof.
  unfold Prim2SF. destruct (PrimFloat.is_nan x).
  - split; reflexivity.
  - split; [| discriminate].
    destruct (PrimFloat.is_zero x); [discriminate |].
    destruct (PrimFloat.is_infinity x); [discriminate |].
    destruct (Z.frexp x) as [r e].
    destruct (shr_fexp prec emax (Uint63.to_Z (normfr_mantissa r))
                (e - prec) loc_Exact) as [shr e'].
    destruct (shr_m shr); discriminate.
Qed.

Lemma not_nan (x : float) :
  PrimFloat.is_nan x = false <-> Prim2SF x <> S754_nan.
Proof.
  rewrite Prim2SF_nan. destruct (PrimFloat.is_nan x); split; congruence.
Qed.

Lemma leb_refl (x : float) : PrimFloat.is_nan x = false -> (x <=? x) = true.
Proof. intro N. rewrite FloatAxioms.leb_spec. apply SFleb_refl. now apply not_nan. Qed.

Lemma leb_trans (x y z : float) :
  (x <=? y) = true -> (y <=? z) = true -> (x <=? z) = true.
Proof. rewrite !FloatAxioms.leb_spec. apply SFleb_trans. Qed.

Lemma ltb_leb (x y : float) : (x <? y) = true -> (x <=? y) = true.
Proof. rewrite FloatAxioms.ltb_spec, FloatAxioms.leb_spec. apply SFltb_leb. Qed.

Lemma not_ltb_leb (x y : float) :
  PrimFloat.is_nan x = false -> PrimFloat.is_nan y = false ->
  (y <? x) = false -> (x <=? y) = true.
Proof.
  rewrite FloatAxioms.ltb_spec, FloatAxioms.leb_spec, !not_nan. apply SFleb_total.
Qed.

Lemma leb_not_nan (x y : float) :
  (x <=? y) = true ->
  PrimFloat.is_nan x = false /\ PrimFloat.is_nan y = false.
Proof. rewrite FloatAxioms.leb_spec, !not_nan. apply SFleb_not_nan. Qed.

Lemma leb_infinity (x : float) :
  PrimFloat.is_nan x = false -> (x <=? infinity) = true.
Proof.
  intro N. apply not_nan in N. rewrite FloatAxioms.leb_spec.
  change (Prim2SF infinity) with (S754_infinity false).
  destruct (Prim2SF x) as [[|]|[|]| |[|] m e]; try reflexivity. congruence.
Qed.

Lemma neg_infinity_leb (x : float) :
  PrimFloat.is_nan x = false -> (neg_infinity <=? x) = true.
Proof.
  intro N. apply not_nan in N. rewrite FloatAxioms.leb_spec.
  change (Prim2SF neg_infinity) with (S754_infinity true).
  destruct (Prim2SF x) as [[|]|[|]| |[|] m e]; try reflexivity. congruence.
Qed.

Import PriceChart.

(** [Math.min] of two numbers is one of them and below both. *)
Lemma min2_below (a b : float) :
  PrimFloat.is_nan a = false -> PrimFloat.is_nan b = false ->
  PrimFloat.is_nan (min2 a b) = false
  /\ (min2 a b <=? a) = true /\ (min2 a b <=? b) = true.
Proof.
  intros Na Nb. unfold min2. rewrite Na, Nb. simpl.
  destruct (a <? b) eqn:L1.
  - split; [exact Na | split; [now apply leb_refl | now apply ltb_leb]].
  - destruct (b <? a) eqn:L2.
    + split; [exact Nb | split; [now apply ltb_leb | now apply leb_refl]].
    + destruct (isNegativeZero a).
      * split; [exact Na | split; [now apply leb_refl | now apply not_ltb_leb]].
      * split; [exact Nb | split; [now apply not_ltb_leb | now apply leb_refl]].
Qed.

Lemma max2_above (a b : float) :
  PrimFloat.is_nan a = false -> PrimFloat.is_nan b = false ->
  PrimFloat.is_nan (max2 a b) = false
  /\ (a <=? max2 a b) = true /\ (b <=? max2 a b) = true.
Proof.
  intros Na Nb. unfold max2. rewrite Na, Nb. simpl.
  destruct (a <? b) eqn:L1.
  - split; [exact Nb | split; [now apply ltb_leb | now apply leb_refl]].
  - destruct (b <? a) eqn:L2.
    + split; [exact Na | split; [now apply leb_refl | now apply ltb_leb]].
    + destruct (isNegativeZero a).
      * split; [exact Nb | split; [now apply not_ltb_leb | now apply leb_refl]].
      * split; [exact Na | split; [now apply leb_refl | now apply not_ltb_leb]].
Qed.

Lemma fold_min2_below (l : list float) (acc : float) :
  PrimFloat.is_nan acc = false ->
  Forall (fun x => PrimFloat.is_nan x = false) l ->
  PrimFloat.is_nan (fold_left min2 l acc) = false
  /\ (fold_left min2 l acc <=? acc) = true
  /\ (forall x, In x l -> (fold_left min2 l acc <=? x) = true).
Proof.
  intros Na F. revert acc Na.
  induction F as [|b l Nb _ IH]; intros acc Na; simpl.
  - split; [exact Na | split; [now apply leb_refl | tauto]].
  - destruct (min2_below acc b Na Nb) as [Nm [La Lb]].
    destruct (IH _ Nm) as [Nr [Lr Lx]].
    split; [exact Nr | split].
    + eapply leb_trans; eassumption.
    + intros x [<-|H]; [eapply leb_trans; eassumption | now apply Lx].
Qed.

Lemma fold_max2_above (l : list float) (acc : float) :
  PrimFloat.is_nan acc = false ->
  Forall (fun x => PrimFloat.is_nan x = false) l ->
  PrimFloat.is_nan (fold_left max2 l acc) = false
  /\ (acc <=? fold_left max2 l acc) = true
  /\ (forall x, In x l -> (x <=? fold_left max2 l acc) = true).
Proof.
  intros Na F. revert acc Na.
  induction F as [|b l Nb _ IH]; intros acc Na; simpl.
  - split; [exact Na | split; [now apply leb_refl | tauto]].
  - destruct (max2_above acc b Na Nb) as [Nm [La Lb]].
    destruct (IH _ Nm) as [Nr [Lr Lx]].
    split; [exact Nr | split].
    + eapply leb_trans; eassumption.
    + intros x [<-|H]; [eapply leb_trans; eassumption | now apply Lx].
Qed.

Lemma Math_min_max_bounds (l : list float) (x : float) :
  Forall (fun y => PrimFloat.is_nan y = false) l ->
  In x l ->
  (Math_min l <=? x) = true /\ (x <=? Math_max l) = true.
Proof.
  intros F H. split.
  - now apply (fold_min2_below l infinity eq_refl F).
  - now apply (fold_max2_above l neg_infinity eq_refl F).
Qed.

(** X12. Whatever [parseInt] makes of the text in the "Minimum Projects"
    box, the number handed to the application is not NaN and not below
    zero. *)
Theorem minProjectsInput_not_negative (parseInt : string -> float)
    (text : string) :
  PrimFloat.is_nan (minProjectsInput parseInt text) = false
  /\ (0 <=? minProjectsInput parseInt text) = true.
Proof.
  unfold minProjectsInput.
  destruct (PrimFloat.is_nan (parseInt text)) eqn:N; simpl.
  - split; reflexivity.
  - destruct (parseInt text <? 0) eqn:L.
    + split; reflexivity.
    + split; [exact N |]. now apply not_ltb_leb.
Qed.

Section Bounds.

Context {T : Type}.

Lemma ProjectMarker_position (p : ProjectOf T) (position : float * float) :
  ProjectMarker p = Some position <->
  hasPosition p = true
  /\ latitude p = Some (fst position) /\ longitude p = Some (snd position).
Proof.
  unfold ProjectMarker, hasPosition.
  destruct (latitude p) as [lat|]; destruct (longitude p) as [lng|];
    cbn [coordinateTruthy].
  - destruct (truthy (Num lat)), (truthy (Num lng)); cbn [negb orb andb];
      (split; [intro H; try discriminate H
              | intros [H [L G]]; try discriminate H]).
    + inversion H. auto.
    + destruct position. simpl in *. congruence.
  - rewrite orb_true_r. split; [discriminate |].
    intros [_ [_ H]]. discriminate H.
  - split; [discriminate |]. intros [_ [H _]]. discriminate H.
  - split; [discriminate |]. intros [_ [H _]]. discriminate H.
Qed.

Lemma coordinateTruthy_not_nan (c : option float) :
  coordinateTruthy c = true -> PrimFloat.is_nan (coordinateNumber c) = false.
Proof.
  destruct c as [x|]; simpl; [| discriminate].
  rewrite negb_true_iff, orb_false_iff. tauto.
Qed.

(** X13. The map is fitted to bounds exactly when some record of the list
    gets a marker, and then every marker lies inside the bounds. An empty
    list resets the view; a list without markers leaves the map as it
    is. *)
Theorem markers_within_bounds (projects : list (ProjectOf T)) :
  ((exists southWest northEast,
       MapUpdater projects = Some (FitBounds southWest northEast))
   <-> exists p, In p projects /\ ProjectMarker p <> None)
  /\ (forall southWest northEast p position,
        MapUpdater projects = Some (FitBounds southWest northEast) ->
        In p projects -> ProjectMarker p = Some position ->
        within southWest northEast position)
  /\ (MapUpdater projects = None
      <-> projects <> [] /\ forall p, In p projects -> ProjectMarker p = None).
Proof.
  assert (Marker : forall p : ProjectOf T,
             ProjectMarker p <> None <-> hasPosition p = true).
  { intro p. split.
    - destruct (ProjectMarker p) as [pos|] eqn:E; [| congruence].
      intros _. now apply ProjectMarker_position in E.
    - intros H E. unfold ProjectMarker, hasPosition in *.
      apply andb_true_iff in H. destruct H as [H1 H2].
      rewrite H1, H2 in E. simpl in E.
      destruct (latitude p), (longitude p); simpl in *; congruence. }
  assert (Valid : forall p : ProjectOf T,
             In p (filter hasPosition projects)
             <-> In p projects /\ hasPosition p = true)
    by (intro p; apply filter_In).
  unfold MapUpdater.
  destruct projects as [|q projects]; [simpl | set (all := q :: projects) in *].
  { split; [| split].
    - split; [intros [sw [ne H]]; discriminate H | intros [p [[] _]]].
    - intros sw ne p position H. discriminate H.
    - split; [discriminate | intros [H _]; congruence]. }
  change (0 <? List.length all)%nat with true. cbv iota.
  destruct (filter hasPosition all) as [|v vs] eqn:F.
  - simpl. split; [| split].
    + split; [intros [sw [ne H]]; discriminate H |].
      intros [p [Hp M]]. apply Marker in M.
      assert (X : In p []) by (apply Valid; auto). destruct X.
    + intros sw ne p position H. discriminate H.
    + split; [| reflexivity]. intros _. split; [discriminate |].
      intros p Hp. destruct (ProjectMarker p) eqn:E; [| reflexivity].
      assert (M : ProjectMarker p <> None) by congruence.
      apply Marker in M. assert (X : In p []) by (apply Valid; auto).
      destruct X.
  - change (0 <? List.length (v :: vs))%nat with true. cbv iota.
    split; [| split].
    + split; [| intros _; eauto].
      intros _. exists v. assert (X : In v (v :: vs)) by now left.
      apply Valid in X. destruct X. split; [assumption | now apply Marker].
    + intros sw ne p position H Hp M. inversion H; subst. clear H.
      apply ProjectMarker_position in M. destruct M as [Hv [Lat Lng]].
      assert (Hin : In p (v :: vs)) by (apply Valid; auto).
      assert (NL : Forall (fun x => PrimFloat.is_nan x = false)
                     (map (fun p => coordinateNumber (latitude p)) (v :: vs))).
      { apply Forall_forall. intros x Hx. apply in_map_iff in Hx.
        destruct Hx as [r [<- Hr]]. apply Valid in Hr. destruct Hr as [_ Hr].
        apply coordinateTruthy_not_nan. unfold hasPosition in Hr.
        now apply andb_true_iff in Hr. }
      assert (NG : Forall (fun x => PrimFloat.is_nan x = false)
                     (map (fun p => coordinateNumber (longitude p)) (v :: vs))).
      { apply Forall_forall. intros x Hx. apply in_map_iff in Hx.
        destruct Hx as [r [<- Hr]]. apply Valid in Hr. destruct Hr as [_ Hr].
        apply coordinateTruthy_not_nan. unfold hasPosition in Hr.
        now apply andb_true_iff in Hr. }
      assert (IL : In (fst position)
                     (map (fun p => coordinateNumber (latitude p)) (v :: vs))).
      { apply in_map_iff. exists p. split; [now rewrite Lat | exact Hin]. }
      assert (IG : In (snd position)
                     (map (fun p => coordinateNumber (longitude p)) (v :: vs))).
      { apply in_map_iff. exists p. split; [now rewrite Lng | exact Hin]. }
      destruct (Math_min_max_bounds _ _ NL IL) as [A B].
      destruct (Math_min_max_bounds _ _ NG IG) as [C D].
      unfold within. simpl. auto.
    + split; [discriminate |]. intros [_ H]. exfalso.
      assert (X : In v (v :: vs)) by now left.
      apply Valid in X. destruct X as [X1 X2]. apply Marker in X2.
      apply X2. now apply H.
Qed.

End Bounds.

End NumberOrder.

(* ===================================================================== *)
(** ** More on the normalizer, the filter and the chart path *)
(* ===================================================================== *)

Lemma value_nested_ind (Q : value -> Prop) :
  Q Undefined -> Q Null -> (forall b, Q (Bool b)) -> (forall x, Q (Num x)) ->
  (forall s, Q (Str s)) ->
  (forall xs, Forall Q xs -> Q (Arr xs)) ->
  (forall props, Q (Obj props)) ->
  forall v, Q v.
Proof.
  intros HU HN HB HNum HS HA HO. fix IH 1.
  intros [| |b|x|s|xs|props];
    [exact HU | exact HN | apply HB | apply HNum | apply HS | | apply HO].
  apply HA. induction xs as [|y ys IHys]; constructor; [apply IH | exact IHys].
Qed.

Lemma lookup_app_last {A : Type} (k k0 : string) (v0 : A)
    (l : list (string * A)) :
  lookup k (l ++ [(k0, v0)])
  = match lookup k l with
    | Some v => Some v
    | None => if k0 =? k then Some v0 else None
    end.
Proof.
  induction l as [|[k1 v1] l IH]; simpl; [reflexivity |].
  destruct (k1 =? k); [reflexivity | exact IH].
Qed.

Lemma lookup_rev_NoDup {A : Type} (k : string) (l : list (string * A)) :
  NoDup (map fst l) -> lookup k (rev l) = lookup k l.
Proof.
  intro ND.
  assert (NDr : NoDup (map fst (rev l))).
  { rewrite map_rev. eapply Permutation_NoDup; [apply Permutation_rev | exact ND]. }
  destruct (lookup k l) as [v|] eqn:L.
  - apply In_lookup; [exact NDr |]. apply in_rev. rewrite rev_involutive.
    now apply In_lookup.
  - apply lookup_None. apply lookup_None in L.
    rewrite map_rev. intro H. apply L. now apply in_rev.
Qed.

Section Merging.

Context {PF : Platform}.

Lemma ToString_Arr (xs : list value) :
  ToString (Arr xs) = joinElements xs.
Proof.
  cbn [ToString]. induction xs as [|y ys IH]; [reflexivity |].
  cbn [joinElements]. now rewrite <- IH.
Qed.

Lemma joinElements_stringifies (xs : list value) :
  Forall (fun v => (exists s, ToString v = inr s) <-> stringifies v = true) xs ->
  (exists s, joinElements xs = inr s) <-> forallb stringifies xs = true.
Proof.
  induction 1 as [|y ys Hy _ IHys].
  - simpl. split; [reflexivity | intros _; eexists; reflexivity].
  - cbn [forallb joinElements]. rewrite andb_true_iff, <- Hy, <- IHys.
    clear Hy IHys.
    assert (E : exists r, (if isNullish y then ret "" else ToString y) = r
                          /\ ((exists s, r = inr s) <-> exists s, ToString y = inr s)).
    { eexists. split; [reflexivity |].
      destruct (isNullish y) eqn:N; [| tauto].
      split; intros _; [| eexists; reflexivity].
      destruct y; try discriminate N; eexists; reflexivity. }
    destruct E as [r [-> E]]. rewrite <- E. clear E.
    destruct r as [e|sy]; cbn [JS.bind JS.ret].
    + split; [intros [s H]; discriminate H | intros [[s H] _]; discriminate H].
    + destruct ys as [|z zs].
      * split; [intros _; split; eexists; reflexivity
               | intros _; eexists; reflexivity].
      * destruct (joinElements (z :: zs)) as [e|rest]; cbn [JS.bind JS.ret].
        -- split; [intros [s H]; discriminate H
                  | intros [_ [s H]]; discriminate H].
        -- split; [intros _; split; eexists; reflexivity
                  | intros _; eexists; reflexivity].
Qed.

Lemma ToString_stringifies (v : value) :
  (exists s, ToString v = inr s) <-> stringifies v = true.
Proof.
  induction v as [| |b|x|s|xs IH|props] using value_nested_ind;
    try (simpl; split; [reflexivity | intros _; eexists; reflexivity]).
  - destruct b; simpl; split; try reflexivity; intros _; eexists; reflexivity.
  - rewrite ToString_Arr. cbn [stringifies].
    now apply joinElements_stringifies.
  - simpl. destruct (hasOwn "toString" props); simpl.
    + split; [intros [s H]; discriminate H | discriminate].
    + split; [reflexivity | intros _; eexists; reflexivity].
Qed.

(** X14. The normalizer returns a record exactly when the item is neither
    [null] nor [undefined] and neither coordinate it selects contains, at
    any depth of arrays, an object with a [toString] entry of its own; in
    every other case it throws. *)
Theorem normalizer_succeeds_iff (item : value) :
  (exists p, transformItemToProject item = inr p)
  <-> isNullish item = false
      /\ stringifies (latOperand item) = true
      /\ stringifies (lngOperand item) = true.
Proof.
  rewrite <- !ToString_stringifies.
  destruct (isNullish item) eqn:N.
  - rewrite (transformItemToProject_nullish item N).
    split; [intros [p H]; discriminate H | intros [H _]; discriminate H].
  - rewrite (transformItemToProject_eq item N). unfold parseFloat.
    destruct (ToString (latOperand item)) as [e1|s1]; cbn [JS.bind JS.ret].
    + split; [intros [p H]; discriminate H | intros [_ [[s H] _]]; discriminate H].
    + destruct (ToString (lngOperand item)) as [e2|s2]; cbn [JS.bind JS.ret].
      * split; [intros [p H]; discriminate H
               | intros [_ [_ [s H]]]; discriminate H].
      * split; [intros _; repeat split; eexists; reflexivity
               | intros _; eexists; reflexivity].
Qed.

Lemma lookup_assignAll (k : string) (src acc : list (string * value)) :
  lookup k (assignAll src acc)
  = match lookup k (rev src) with
    | Some v => Some v
    | None => lookup k acc
    end.
Proof.
  unfold assignAll. revert acc.
  induction src as [|[k0 v0] src IH]; intro acc; simpl; [reflexivity |].
  rewrite IH, lookup_app_last.
  destruct (lookup k (rev src)); [reflexivity |].
  destruct (String.eqb_spec k0 k) as [->|N].
  - apply lookup_assign_eq.
  - now apply lookup_assign_ne.
Qed.

Lemma NoDup_assignAll (src acc : list (string * value)) :
  NoDup (map fst acc) -> NoDup (map fst (assignAll src acc)).
Proof.
  unfold assignAll. revert acc.
  induction src as [|[k0 v0] src IH]; intros acc ND; simpl; [exact ND |].
  apply IH. now apply NoDup_assign.
Qed.

Lemma spread_objects (pa pb : list (string * value)) (k : string) :
  NoDup (map fst pa) -> NoDup (map fst pb) ->
  exists merged,
    spread (Obj pa) (Obj pb) = Obj merged
    /\ NoDup (map fst merged)
    /\ lookup k merged
       = match lookup k pb with
         | Some v => Some v
         | None => lookup k pa
         end.
Proof.
  intros Na Nb. eexists. split; [reflexivity | split].
  - apply NoDup_assignAll, NoDup_assignAll. constructor.
  - simpl. rewrite !lookup_assignAll.
    rewrite (lookup_rev_NoDup k pb Nb), (lookup_rev_NoDup k pa Na).
    destruct (lookup k pb); [reflexivity |]. now destruct (lookup k pa).
Qed.

(** X15. When the extra-attributes payload is an object, or text opening
    with a brace that parses to an object, the record's attributes are
    the item's attributes overlaid with the payload: under every key the
    payload's value if it has the key, else the attribute's, and no key
    twice. *)
Theorem payload_overrides_attributes (pa pb : list (string * value))
    (rawAttributes : value) (k : string) :
  NoDup (map fst pa) -> NoDup (map fst pb) ->
  rawAttributes = Obj pb
  \/ (exists s, rawAttributes = Str s /\ s <> ""
                /\ startsWith (trim s) "{" = true
                /\ JSON_parse s = inr (Obj pb)) ->
  exists merged,
    mergeAttributes (Obj pa) rawAttributes = Obj merged
    /\ NoDup (map fst merged)
    /\ lookup k merged
       = match lookup k pb with
         | Some v => Some v
         | None => lookup k pa
         end.
Proof.
  intros Na Nb H.
  destruct (spread_objects pa pb k Na Nb) as [merged [E R]].
  exists merged. split; [| exact R]. rewrite <- E.
  destruct H as [->|[s [-> [N [B J]]]]]; unfold mergeAttributes.
  - reflexivity.
  - simpl. destruct (String.eqb_spec s ""); [contradiction |].
    simpl. now rewrite B, J.
Qed.

(** X16. Replacing a selection by "All", or a search text by the empty
    text, never hides a record that was listed. *)
Theorem relaxing_filters_keeps_records
    (selectedProvince selectedDistrict selectedInvestor : string)
    (T T' : nat) (searchQuery investorSearchQuery : string)
    (selectedProvince' selectedDistrict' selectedInvestor' : string)
    (searchQuery' investorSearchQuery' : string)
    (allProjects : list Project) :
  (selectedProvince' = selectedProvince \/ selectedProvince' = "All") ->
  (selectedDistrict' = selectedDistrict \/ selectedDistrict' = "All") ->
  (selectedInvestor' = selectedInvestor \/ selectedInvestor' = "All") ->
  (searchQuery' = searchQuery \/ searchQuery' = "") ->
  (investorSearchQuery' = investorSearchQuery \/ investorSearchQuery' = "") ->
  incl
    (filterProjects allProjects selectedProvince selectedDistrict
       selectedInvestor T searchQuery investorSearchQuery)
    (filterProjects allProjects selectedProvince' selectedDistrict'
       selectedInvestor' T' searchQuery' investorSearchQuery').
Proof.
  intros HP HD HI HS HV p H. unfold filterProjects in *.
  apply filter_In in H. destruct H as [Hin M]. apply filter_In.
  split; [exact Hin |]. unfold projectMatches in *.
  repeat (apply andb_true_iff in M; destruct M as [M ?]).
  repeat (apply andb_true_iff; split).
  - destruct HP as [->| ->]; [exact M | reflexivity].
  - destruct HD as [->| ->]; [assumption | reflexivity].
  - destruct HI as [->| ->].
    + destruct (negb (selectedInvestor =? "All")); [assumption |].
      now destruct (0 <? T')%nat.
    + simpl. now destruct (0 <? T')%nat.
  - destruct HS as [->| ->]; [assumption | reflexivity].
  - destruct HV as [->| ->]; [assumption | reflexivity].
Qed.

Lemma includes_self (text : string) : includes text text = true.
Proof.
  apply includes_spec. exists "", "". simpl.
  induction text as [|c text IH]; simpl; [reflexivity | now rewrite <- IH].
Qed.

(** X17. With nothing else filtered, a record with a non-empty name is
    listed when the search text equals its name up to letter case. *)
Theorem search_finds_by_name (allProjects : list Project) (p : Project)
    (T : nat) (searchQuery : string) :
  In p allProjects ->
  name p <> "" ->
  toLowerCase searchQuery = toLowerCase (name p) ->
  In p (filterProjects allProjects "All" "All" "All" T searchQuery "").
Proof.
  intros Hin N E. apply filter_In. split; [exact Hin |].
  unfold projectMatches. simpl. rewrite E, includes_self.
  destruct (String.eqb_spec (name p) ""); [contradiction |].
  simpl. rewrite orb_true_r. now destruct (0 <? T)%nat.
Qed.

End Merging.

Module PathSpec.

Import PriceChart.

Lemma createPathFrom_nth (data : PriceHistory) (values : list float)
    (start i : nat) (v : float) :
  nth_error values i = Some v ->
  nth_error (createPathFrom data start values) i
  = Some ((if (start + i =? 0)%nat then M else L),
          getX data (number (start + i)), getY data v).
Proof.
  revert start i. induction values as [|w values IH]; intros start i H.
  - destruct i; discriminate H.
  - destruct i as [|i]; simpl in *.
    + inversion H; subst. now rewrite Nat.add_0_r.
    + rewrite (IH (S start) i H). now rewrite Nat.add_succ_r.
Qed.

Lemma createPathFrom_length (data : PriceHistory) (values : list float)
    (start : nat) :
  List.length (createPathFrom data start values) = List.length values.
Proof.
  revert start. induction values as [|w values IH]; intro start; simpl;
    [reflexivity | now rewrite IH].
Qed.

(** X18. A path has one segment per value, in order: the segment of the
    value at index [i] goes to [(getX i, getY value)], and it is a
    move-to for index 0 and a line-to for every other index. *)
Theorem createPath_segments (data : PriceHistory) (values : list float) :
  List.length (createPath data values) = List.length values
  /\ (forall i v,
        nth_error values i = Some v ->
        nth_error (createPath data values) i
        = Some ((if (i =? 0)%nat then M else L),
                getX data (number i), getY data v)).
Proof.
  split; [apply createPathFrom_length |].
  intros i v H. exact (createPathFrom_nth data values 0 i v H).
Qed.

End PathSpec.

(* ===================================================================== *)
(** ** The theorems at work *)
(* ===================================================================== *)

#[local] Existing Instance Example.platform.

(** An item is accepted at the declared type exactly when the program's
    normalizer stores a record for it whose text fields hold text, and the
    accepted record is that one. *)
Lemma typedNormalizer_stored (item : value) (project : Project) :
  Example.typedNormalizer item = inr project
  <-> exists stored,
        transformItemToProject item = inr stored
        /\ asProject stored = Some project.
Proof.
  unfold Example.typedNormalizer.
  destruct (transformItemToProject item) as [e|stored]; cbn [JS.bind].
  - split; [discriminate | intros [r [E _]]; discriminate E].
  - destruct (asProject stored) as [p|] eqn:A.
    + split.
      * intro E. inversion E; subst. exists stored. split; [reflexivity | exact A].
      * intros [r [E A']]. inversion E; subst. rewrite A in A'.
        inversion A'; subst. reflexivity.
    + split; [discriminate |].
      intros [r [E A']]. inversion E; subst. rewrite A in A'. discriminate A'.
Qed.

(** A record with a number for its investor is stored by the program as it
    is; at the declared type there is no such record. *)
Example number_as_investor :
  exists stored,
    transformItemToProject (Obj [("name", Str "Tower"); ("investor", Num 5)])
    = inr stored
    /\ investor stored = Num 5
    /\ asProject stored = None.
Proof. eexists. split; [vm_compute; reflexivity | split; reflexivity]. Qed.

(** The series -11, -10, -9: the padded bounds meet, and no value is drawn
    on the canvas. *)
Lemma getY_formula_unguarded_witness :
  (PriceChart.range
     (PriceChart.mkPriceHistory ["2020"] [(-10)%float] [(-11)%float]
        [(-9)%float])
   =? 0)%float = true
  /\ forall v,
       PriceChart.offCanvas
         (PriceChart.getY
            (PriceChart.mkPriceHistory ["2020"] [(-10)%float] [(-11)%float]
               [(-9)%float]) v)
       /\ (PriceChart.getY
             (PriceChart.mkPriceHistory ["2020"] [(-10)%float] [(-11)%float]
                [(-9)%float]) v
           =? PriceChart.height / 2)%float = false.
Proof.
  split; [reflexivity |].
  apply (ChartSpec.getY_formula_unguarded
           (PriceChart.mkPriceHistory ["2020"] [(-10)%float] [(-11)%float]
              [(-9)%float])).
  reflexivity.
Defined.


(** The selection "Ghost", which no roster offers, made on a one-record
    set. *)
Lemma selection_always_valid_witness :
  reachable (PF := Example.platform) Example.typedNormalizer
    [sampleProject "Tower" "Hanoi" "Ba Dinh" "Eco Corp"]
    (step (PF := Example.platform) Example.typedNormalizer
       (InvestorChange "Ghost")
       (App.settle (PF := Example.platform)
          (App.initialState
             [sampleProject "Tower" "Hanoi" "Ba Dinh" "Eco Corp"])))
  /\ App.selectedInvestor
       (step (PF := Example.platform) Example.typedNormalizer
          (InvestorChange "Ghost")
          (App.settle (PF := Example.platform)
             (App.initialState
                [sampleProject "Tower" "Hanoi" "Ba Dinh" "Eco Corp"])))
     = "All"
  /\ selectionValid (PF := Example.platform)
       (step (PF := Example.platform) Example.typedNormalizer
          (InvestorChange "Ghost")
          (App.settle (PF := Example.platform)
             (App.initialState
                [sampleProject "Tower" "Hanoi" "Ba Dinh" "Eco Corp"]))).
Proof.
  split; [apply reachable_step, reachable_mount |].
  split; [reflexivity |].
  apply (selection_always_valid (PF := Example.platform)
           Example.typedNormalizer
           [sampleProject "Tower" "Hanoi" "Ba Dinh" "Eco Corp"]).
  apply reachable_step, reachable_mount.
Defined.

(** The example of the specification: the parser reports "X" at row 3. *)
Lemma failed_upload_keeps_records_witness :
  UploadFailure (PF := Example.platform)
    (File.mk "data.csv" "text/csv" (Some "a,b
1,2
3")) true "CSV parsing error on row 3: X"
  /\ App.allProjects
       (App.handleFileUpload (PF := Example.platform) transformItemToProject
          (File.mk "data.csv" "text/csv" (Some "a,b
1,2
3")) true
          (App.initialState [normalizedRecord (Obj []) nan nan]))
     = [normalizedRecord (Obj []) nan nan]
  /\ App.uploadError
       (App.handleFileUpload (PF := Example.platform) transformItemToProject
          (File.mk "data.csv" "text/csv" (Some "a,b
1,2
3")) true
          (App.initialState [normalizedRecord (Obj []) nan nan]))
     = Some "CSV parsing error on row 3: X"
  /\ includes "CSV parsing error on row 3: X" "row 3" = true
  /\ includes "CSV parsing error on row 3: X" "X" = true.
Proof.
  assert (F : UploadFailure (PF := Example.platform)
                (File.mk "data.csv" "text/csv" (Some "a,b
1,2
3")) true "CSV parsing error on row 3: X").
  { apply (csv_row_error (PF := Example.platform) _ true "a,b
1,2
3" (mkPapaError 3 "X") []); reflexivity. }
  split; [exact F |].
  destruct (failed_upload_keeps_records (PF := Example.platform) _ _ _
              (App.initialState [normalizedRecord (Obj []) nan nan]) F)
    as [_ [A E]].
  split; [exact A | split; [exact E | split; reflexivity]].
Defined.

(** A JSON file with one empty object, uploaded over a state whose every
    filter is set. *)
Lemma successful_upload_resets_filters_witness :
  File.text (File.mk "projects.json" "application/json" (Some "[{}]"))
  = Some "[{}]"
  /\ App.processFile (PF := Example.platform) transformItemToProject
       (File.mk "projects.json" "application/json" (Some "[{}]")) false "[{}]"
     = inr [normalizedRecord (Obj []) nan nan]
  /\ App.handleFileUpload (PF := Example.platform) transformItemToProject
       (File.mk "projects.json" "application/json" (Some "[{}]")) false
       (App.mkState [] [] (Some "old") "Hanoi" "Ba Dinh" "Eco Corp" true 3
          "tower" "eco")
     = App.mkState [normalizedRecord (Obj []) nan nan] [] None
         "All" "All" "All" true 0 "" "".
Proof.
  split; [reflexivity | split; [vm_compute; reflexivity |]].
  apply (successful_upload_resets_filters (PF := Example.platform)
           (File.mk "projects.json" "application/json" (Some "[{}]"))
           false "[{}]" [normalizedRecord (Obj []) nan nan]
           (App.mkState [] [] (Some "old") "Hanoi" "Ba Dinh" "Eco Corp"
              true 3 "tower" "eco")).
  - reflexivity.
  - vm_compute. reflexivity.
Defined.

(* ===================================================================== *)
(** ** The further properties at work *)
(* ===================================================================== *)

Lemma Example_localeCompare_total (a b : string) :
  Example.localeCompare a b = Gt -> Example.localeCompare b a <> Gt.
Proof.
  unfold Example.localeCompare.
  rewrite (String.compare_antisym (Example.toLowerCase b)
             (Example.toLowerCase a)).
  destruct (String.compare (Example.toLowerCase a) (Example.toLowerCase b));
    simpl; try discriminate.
  intro H. rewrite (String.compare_antisym a b), H. discriminate.
Qed.

Lemma roster_sorted_by_name_witness :
  (forall a b, localeCompare a b = Gt -> localeCompare b a <> Gt)
  /\ Sorted
       (fun i j => localeCompare (Investor.name i) (Investor.name j) <> Gt)
       (investorsData
          [sampleProject "B" "Dong Nai" "Bien Hoa" "eco Corp";
           sampleProject "A" "Dong Nai" "Bien Hoa" "Eco Corp";
           sampleProject "C" "Dong Nai" "Bien Hoa" ""]
          "Dong Nai" "All" 0).
Proof.
  split; [exact Example_localeCompare_total |].
  apply (roster_sorted_by_name (PF := Example.platform)).
  exact Example_localeCompare_total.
Defined.

Lemma roster_shrinks_with_threshold_witness :
  1 <= 2
  /\ incl
       (investorsData
          [sampleProject "A" "Dong Nai" "Bien Hoa" "Eco Corp";
           sampleProject "B" "Dong Nai" "Bien Hoa" "Eco Corp";
           sampleProject "C" "Dong Nai" "Bien Hoa" ""]
          "Dong Nai" "All" 2)
       (investorsData
          [sampleProject "A" "Dong Nai" "Bien Hoa" "Eco Corp";
           sampleProject "B" "Dong Nai" "Bien Hoa" "Eco Corp";
           sampleProject "C" "Dong Nai" "Bien Hoa" ""]
          "Dong Nai" "All" 1).
Proof.
  split; [lia |].
  apply (roster_shrinks_with_threshold (PF := Example.platform)). lia.
Defined.

Lemma roster_count_is_result_count_witness :
  In (Investor.mk "Eco Corp" (Investor.Number 2))
     (investorsData
        [sampleProject "A" "Dong Nai" "Bien Hoa" "Eco Corp";
         sampleProject "B" "Dong Nai" "Bien Hoa" "Eco Corp";
         sampleProject "C" "Dong Nai" "Bien Hoa" ""]
        "Dong Nai" "All" 1)
  /\ "Eco Corp" <> "All"
  /\ List.length
       (filterProjects
          [sampleProject "A" "Dong Nai" "Bien Hoa" "Eco Corp";
           sampleProject "B" "Dong Nai" "Bien Hoa" "Eco Corp";
           sampleProject "C" "Dong Nai" "Bien Hoa" ""]
          "Dong Nai" "All" "Eco Corp" 1 "" "")
     = 2.
Proof.
  assert (H : In (Investor.mk "Eco Corp" (Investor.Number 2))
                (investorsData
                   [sampleProject "A" "Dong Nai" "Bien Hoa" "Eco Corp";
                    sampleProject "B" "Dong Nai" "Bien Hoa" "Eco Corp";
                    sampleProject "C" "Dong Nai" "Bien Hoa" ""]
                   "Dong Nai" "All" 1))
    by (vm_compute; left; reflexivity).
  split; [exact H | split; [discriminate |]].
  apply (roster_count_is_result_count (PF := Example.platform) _ _ _ _ _ _ H).
  discriminate.
Defined.

Lemma import_keeps_every_item_witness :
  App.processFile transformItemToProject
    (File.mk "projects.json" "application/json" (Some "[{}]")) false "[{}]"
  = inr [normalizedRecord (Obj []) nan nan]
  /\ exists items,
       Forall2 (fun item p => transformItemToProject item = inr p) items
         [normalizedRecord (Obj []) nan nan]
       /\ List.length items = 1.
Proof.
  assert (H : App.processFile transformItemToProject
                (File.mk "projects.json" "application/json" (Some "[{}]"))
                false "[{}]"
              = inr [normalizedRecord (Obj []) nan nan])
    by (vm_compute; reflexivity).
  split; [exact H |].
  destruct (import_keeps_every_item (PF := Example.platform)
              transformItemToProject _ _ _ _ H) as [items [F _]].
  exists items. split; [exact F |].
  apply Forall2_length in F. exact F.
Defined.

(** Two records on display; the province is set to Hue and then the
    investor search to "sun". After the first handler alone the list
    still shows both records; each cycle's effect brings it up to date,
    and the second one leaves the Hue record of Sun Corp. *)
Lemma displayed_list_is_current_witness :
  reachable Example.typedNormalizer
    [sampleProject "Tower" "Hanoi" "Ba Dinh" "Eco Corp";
     sampleProject "Park" "Hue" "Phu Vang" "Sun Corp";
     sampleProject "Lake" "Hue" "Phu Vang" "Eco Corp"]
    (step Example.typedNormalizer (InvestorSearchChange "sun")
       (step Example.typedNormalizer (ProvinceChange "Hue")
          (App.settle
             (App.initialState
                [sampleProject "Tower" "Hanoi" "Ba Dinh" "Eco Corp";
                 sampleProject "Park" "Hue" "Phu Vang" "Sun Corp";
                 sampleProject "Lake" "Hue" "Phu Vang" "Eco Corp"]))))
  /\ App.filteredProjects
       (handle Example.typedNormalizer (ProvinceChange "Hue")
          (App.settle
             (App.initialState
                [sampleProject "Tower" "Hanoi" "Ba Dinh" "Eco Corp";
                 sampleProject "Park" "Hue" "Phu Vang" "Sun Corp";
                 sampleProject "Lake" "Hue" "Phu Vang" "Eco Corp"])))
     = [sampleProject "Tower" "Hanoi" "Ba Dinh" "Eco Corp";
        sampleProject "Park" "Hue" "Phu Vang" "Sun Corp";
        sampleProject "Lake" "Hue" "Phu Vang" "Eco Corp"]
  /\ App.filteredProjects
       (step Example.typedNormalizer (ProvinceChange "Hue")
          (App.settle
             (App.initialState
                [sampleProject "Tower" "Hanoi" "Ba Dinh" "Eco Corp";
                 sampleProject "Park" "Hue" "Phu Vang" "Sun Corp";
                 sampleProject "Lake" "Hue" "Phu Vang" "Eco Corp"])))
     = [sampleProject "Park" "Hue" "Phu Vang" "Sun Corp";
        sampleProject "Lake" "Hue" "Phu Vang" "Eco Corp"]
  /\ App.filteredProjects
       (step Example.typedNormalizer (InvestorSearchChange "sun")
          (step Example.typedNormalizer (ProvinceChange "Hue")
             (App.settle
                (App.initialState
                   [sampleProject "Tower" "Hanoi" "Ba Dinh" "Eco Corp";
                    sampleProject "Park" "Hue" "Phu Vang" "Sun Corp";
                    sampleProject "Lake" "Hue" "Phu Vang" "Eco Corp"]))))
     = [sampleProject "Park" "Hue" "Phu Vang" "Sun Corp"]
  /\ App.filteredProjects
       (step Example.typedNormalizer (InvestorSearchChange "sun")
          (step Example.typedNormalizer (ProvinceChange "Hue")
             (App.settle
                (App.initialState
                   [sampleProject "Tower" "Hanoi" "Ba Dinh" "Eco Corp";
                    sampleProject "Park" "Hue" "Phu Vang" "Sun Corp";
                    sampleProject "Lake" "Hue" "Phu Vang" "Eco Corp"]))))
     = App.filtered
         (step Example.typedNormalizer (InvestorSearchChange "sun")
            (step Example.typedNormalizer (ProvinceChange "Hue")
               (App.settle
                  (App.initialState
                     [sampleProject "Tower" "Hanoi" "Ba Dinh" "Eco Corp";
                      sampleProject "Park" "Hue" "Phu Vang" "Sun Corp";
                      sampleProject "Lake" "Hue" "Phu Vang" "Eco Corp"])))).
Proof.
  assert (R : reachable Example.typedNormalizer
                [sampleProject "Tower" "Hanoi" "Ba Dinh" "Eco Corp";
                 sampleProject "Park" "Hue" "Phu Vang" "Sun Corp";
                 sampleProject "Lake" "Hue" "Phu Vang" "Eco Corp"]
                (step Example.typedNormalizer (InvestorSearchChange "sun")
                   (step Example.typedNormalizer (ProvinceChange "Hue")
                      (App.settle
                         (App.initialState
                            [sampleProject "Tower" "Hanoi" "Ba Dinh" "Eco Corp";
                             sampleProject "Park" "Hue" "Phu Vang" "Sun Corp";
                             sampleProject "Lake" "Hue" "Phu Vang"
                               "Eco Corp"]))))).
  { apply reachable_step, reachable_step, reachable_mount. }
  split; [exact R |].
  split; [vm_compute; reflexivity |].
  split; [vm_compute; reflexivity |].
  split; [vm_compute; reflexivity |].
  exact (proj1 (displayed_list_is_current (PF := Example.platform)
                  Example.typedNormalizer _ _ R)).
Defined.


Lemma payload_overrides_attributes_witness :
  NoDup (map fst [("Legal", Str "old"); ("Floors", Str "12")])
  /\ NoDup (map fst [("Legal", Str "ok")])
  /\ exists merged,
       mergeAttributes (Obj [("Legal", Str "old"); ("Floors", Str "12")])
         (Obj [("Legal", Str "ok")])
       = Obj merged
       /\ lookup "Legal" merged = Some (Str "ok").
Proof.
  assert (Na : NoDup (map fst [("Legal", Str "old"); ("Floors", Str "12")])).
  { repeat constructor; simpl; intuition discriminate. }
  assert (Nb : NoDup (map fst [("Legal", Str "ok")])).
  { repeat constructor; simpl; tauto. }
  split; [exact Na | split; [exact Nb |]].
  destruct (payload_overrides_attributes (PF := Example.platform)
              [("Legal", Str "old"); ("Floors", Str "12")]
              [("Legal", Str "ok")] (Obj [("Legal", Str "ok")]) "Legal"
              Na Nb (or_introl eq_refl))
    as [merged [E [_ L]]].
  exists merged. split; [exact E | exact L].
Defined.

Lemma relaxing_filters_keeps_records_witness :
  incl
    (filterProjects
       [sampleProject "Tower" "Hanoi" "Ba Dinh" "Eco Corp";
        sampleProject "Park" "Hue" "Phu Vang" "Eco Corp"]
       "Hanoi" "Ba Dinh" "Eco Corp" 0 "tow" "")
    (filterProjects
       [sampleProject "Tower" "Hanoi" "Ba Dinh" "Eco Corp";
        sampleProject "Park" "Hue" "Phu Vang" "Eco Corp"]
       "All" "Ba Dinh" "Eco Corp" 2 "" "").
Proof.
  apply (relaxing_filters_keeps_records (PF := Example.platform));
    first [left; reflexivity | right; reflexivity].
Defined.

Lemma search_finds_by_name_witness :
  In (sampleProject "Tower" "Hanoi" "Ba Dinh" "Eco Corp")
     (filterProjects
        [sampleProject "Tower" "Hanoi" "Ba Dinh" "Eco Corp";
         sampleProject "Park" "Hue" "Phu Vang" "Eco Corp"]
        "All" "All" "All" 0 "TOWER" "").
Proof.
  apply (search_finds_by_name (PF := Example.platform)).
  - left. reflexivity.
  - discriminate.
  - reflexivity.
Defined.
